(** * The GraphSON codec of gremlin_python

    A shallow embedding of
    [gremlin_python/structure/io/graphson.py]: the two registries filled by
    the metaclass [GraphSONTypeType], the session class [GraphSONIO] with its
    tree walks [toDict] and [toObject] and the envelope helper [typedValue],
    and every codec unit ([dictify] / [objectify]) of the module.

    Python values are the inductive type [pyobj]; a call that can raise
    returns a [result], whose [Raise] carries the exception class.  A dict is
    an association list in insertion order, which is also the order in which
    [items()] enumerates it; a set is the list of its members in the order
    in which it is iterated.  [writeObject] and [readObject] compose [toDict]
    and [toObject] with [json.dumps] and [json.loads] and are left out. *)

From Stdlib Require Import ZArith List String Ascii Bool Lia.
From Stdlib Require Import SpecFloat.
Import ListNotations.
Local Open Scope string_scope.
Local Open Scope Z_scope.

Scheme All for list.
Scheme All for prod.

(** ** Exceptions and results *)

Inductive exn : Set :=
| KeyError | TypeError | ValueError | OverflowError
| IndexError | AttributeError.

Inductive result (A : Type) : Type :=
| Ok (a : A)
| Raise (e : exn).
Arguments Ok {A} a.
Arguments Raise {A} e.

Definition bind {A B : Type} (r : result A) (k : A -> result B) : result B :=
  match r with
  | Ok a => k a
  | Raise e => Raise e
  end.

Notation "x <- r ;; k" := (bind r (fun x => k))
  (at level 61, r at next level, right associativity).

(** [try: body / except KeyError: handler]: only [KeyError] is caught. *)
Definition try_except_KeyError {A : Type} (body handler : result A) : result A :=
  match body with
  | Raise KeyError => handler
  | _ => body
  end.

Section Sequences.
Context {A B : Type}.
Variable f : A -> result B.

(** [[f(a) for a in l]]: left to right, the first exception ends it. *)
Fixpoint mapM (l : list A) : result (list B) :=
  match l with
  | [] => Ok []
  | a :: rest => b <- f a ;; bs <- mapM rest ;; Ok (b :: bs)
  end.
End Sequences.

(** ** Python values *)

(** Modelled from the spec: the classes of [gremlin_python.process.traversal]
    and [gremlin_python.structure.graph] (Traverser, Vertex, Edge,
    VertexProperty, Property, Path, Bytecode, Traversal, TraversalStrategy, P,
    Binding, the enums) are imported by the module and not defined in it; each
    is a constructor carrying the attributes the codec reads or the
    constructor arguments it passes, under the attribute names of the source
    (a constructor stores its arguments; what else a class may do with them
    is not part of the module).
    The built-in values come first.  [PyFunction] is a zero-argument callable,
    carried by what calling it returns; [PyType] is a class object, carried by
    the instance that calling it without arguments builds; [PyObject] is an
    instance of any class the codec does not know. *)
Inductive pyobj : Type :=
| PyNone
| PyBool (b : bool)
| PyInt (n : Z)
| PyLong (n : Z)
| PyFloat (x : spec_float)
| PyStr (s : string)
| PyList (l : list pyobj)
| PyTuple (l : list pyobj)
| PySet (l : list pyobj)
| PyDict (items : list (pyobj * pyobj))
| PyFunction (lambda_result : pyobj)
| PyType (instance : pyobj)
| PyObject (class_name : string)
| EnumMember (type_name name : string)
| Traverser (object bulk : pyobj)
| Vertex (id label : pyobj)
| Edge (id outV label inV : pyobj)
| VertexProperty (id label value : pyobj)
| Property (key value : pyobj)
| Path (labels objects : list pyobj)
| Bytecode (source_instructions step_instructions : list (list pyobj))
| Traversal (bytecode : pyobj)
| TraversalStrategy (strategy_name : string) (configuration : pyobj)
| P (operator : string) (value other : pyobj)
| Binding (key : string) (value : pyobj).

Definition is_None (o : pyobj) : bool :=
  match o with PyNone => true | _ => false end.

(** ** The host: what the module takes from the Python runtime and from
    [gremlin_python.statics] *)

(** [statics] and the interpreter are not part of the module; what the module
    uses of them and cannot be computed here is a parameter.  [PY3] is
    [six.PY3]: on Python 3 [statics.long] is a subclass of [int], on Python 2
    it is the built-in [long].  [default_lambda_language] is the constant of
    that name in [statics].  [eval_co_argcount script] is
    [six.get_function_code(eval(script)).co_argcount]; [int_of_str] and
    [float_of_str] are the parsers behind [int(s)] and [float(s)] ([None]
    when they raise ValueError). *)
Class Runtime : Type := {
  PY3 : bool;
  default_lambda_language : string;
  eval_co_argcount : string -> result pyobj;
  int_of_str : string -> option Z;
  float_of_str : string -> option spec_float
}.

(** ** Classes and [isinstance] *)

Module Cls.
(** Modelled from the spec: the classes the module names as [python_type] or
    tests with [isinstance] ([FloatType], [FunctionType], [IntType],
    [LongType], [TypeType] come from [statics]), and the classes of the
    other values of [pyobj]. *)
Inductive t : Set :=
| FloatType | FunctionType | IntType | LongType | TypeType
| Binding | Bytecode | P | Traversal | Traverser | TraversalStrategy | Enum
| Edge | Property | Vertex | VertexProperty | Path
| NoneType | py_bool | py_str | py_list | py_tuple | py_set | py_dict
| Other.

Definition eq_dec (a b : t) : {a = b} + {a <> b}.
Proof. decide equality. Defined.

Definition eqb (a b : t) : bool := if eq_dec a b then true else false.
End Cls.

Definition type_of (obj : pyobj) : Cls.t :=
  match obj with
  | PyNone => Cls.NoneType
  | PyBool _ => Cls.py_bool
  | PyInt _ => Cls.IntType
  | PyLong _ => Cls.LongType
  | PyFloat _ => Cls.FloatType
  | PyStr _ => Cls.py_str
  | PyList _ => Cls.py_list
  | PyTuple _ => Cls.py_tuple
  | PySet _ => Cls.py_set
  | PyDict _ => Cls.py_dict
  | PyFunction _ => Cls.FunctionType
  | PyType _ => Cls.TypeType
  | PyObject _ => Cls.Other
  | EnumMember _ _ => Cls.Enum
  | Traverser _ _ => Cls.Traverser
  | Vertex _ _ => Cls.Vertex
  | Edge _ _ _ _ => Cls.Edge
  | VertexProperty _ _ _ => Cls.VertexProperty
  | Property _ _ => Cls.Property
  | Path _ _ => Cls.Path
  | Bytecode _ _ => Cls.Bytecode
  | Traversal _ => Cls.Traversal
  | TraversalStrategy _ _ => Cls.TraversalStrategy
  | P _ _ _ => Cls.P
  | Binding _ _ => Cls.Binding
  end.

Section Isinstance.
Context {RT : Runtime}.

(** [bool] is a subclass of [int]; [statics.long] is one on Python 3. *)
Definition issubclass (c k : Cls.t) : bool :=
  Cls.eqb c k
  || match c, k with
     | Cls.py_bool, Cls.IntType => true
     | Cls.LongType, Cls.IntType => PY3
     | _, _ => false
     end.

Definition isinstance (obj : pyobj) (k : Cls.t) : bool :=
  issubclass (type_of obj) k.
End Isinstance.

(** ** Built-in operations of the interpreter *)

Section Pairwise.
Context {A : Type}.
Variable eqb : A -> A -> bool.

Fixpoint all2 (l1 l2 : list A) : bool :=
  match l1, l2 with
  | [], [] => true
  | a :: r1, b :: r2 => eqb a b && all2 r1 r2
  | _, _ => false
  end.
End Pairwise.

(** The integer a [bool], [int] or [long] stands for. *)
Definition int_value (o : pyobj) : option Z :=
  match o with
  | PyBool b => Some (Z.b2z b)
  | PyInt n | PyLong n => Some n
  | _ => None
  end.

(** [x == n] for a float [x] and an integer [n] (exact comparison). *)
Definition float_int_eqb (x : spec_float) (n : Z) : bool :=
  match x with
  | S754_zero _ => n =? 0
  | S754_finite s m e =>
      let sign (a : Z) := if s then - a else a in
      if 0 <=? e then sign (Z.pos m * 2 ^ e) =? n
      else (Z.pos m mod 2 ^ (- e) =? 0) && (sign (Z.pos m / 2 ^ (- e)) =? n)
  | _ => false
  end.

(** [a == b] on the values that can be dict keys or set members: numbers by
    value across [bool], [int], [long] and [float]; strings, tuples and the
    other objects by structure.  Lists, sets and dicts are unhashable and
    never reach this comparison. *)
Fixpoint py_eqb (a b : pyobj) {struct a} : bool :=
  match int_value a, int_value b with
  | Some x, Some y => x =? y
  | Some x, None => match b with PyFloat y => float_int_eqb y x | _ => false end
  | None, Some y => match a with PyFloat x => float_int_eqb x y | _ => false end
  | None, None =>
      match a, b with
      | PyNone, PyNone => true
      | PyFloat x, PyFloat y => SFeqb x y
      | PyStr s1, PyStr s2 => String.eqb s1 s2
      | PyTuple l1, PyTuple l2 => all2 py_eqb l1 l2
      | PyFunction r1, PyFunction r2 => py_eqb r1 r2
      | PyType i1, PyType i2 => py_eqb i1 i2
      | PyObject c1, PyObject c2 => String.eqb c1 c2
      | EnumMember t1 n1, EnumMember t2 n2 => String.eqb t1 t2 && String.eqb n1 n2
      | Traverser o1 b1, Traverser o2 b2 => py_eqb o1 o2 && py_eqb b1 b2
      | Vertex i1 l1, Vertex i2 l2 => py_eqb i1 i2 && py_eqb l1 l2
      | Edge i1 o1 l1 v1, Edge i2 o2 l2 v2 =>
          py_eqb i1 i2 && py_eqb o1 o2 && py_eqb l1 l2 && py_eqb v1 v2
      | VertexProperty i1 l1 v1, VertexProperty i2 l2 v2 =>
          py_eqb i1 i2 && py_eqb l1 l2 && py_eqb v1 v2
      | Property k1 v1, Property k2 v2 => py_eqb k1 k2 && py_eqb v1 v2
      | Path l1 o1, Path l2 o2 => all2 py_eqb l1 l2 && all2 py_eqb o1 o2
      | Bytecode s1 t1, Bytecode s2 t2 =>
          all2 (all2 py_eqb) s1 s2 && all2 (all2 py_eqb) t1 t2
      | Traversal b1, Traversal b2 => py_eqb b1 b2
      | TraversalStrategy n1 c1, TraversalStrategy n2 c2 =>
          String.eqb n1 n2 && py_eqb c1 c2
      | P p1 v1 o1, P p2 v2 o2 => String.eqb p1 p2 && py_eqb v1 v2 && py_eqb o1 o2
      | Binding k1 v1, Binding k2 v2 => String.eqb k1 k2 && py_eqb v1 v2
      | _, _ => false
      end
  end.

(** [hash(o)] succeeds: lists, sets and dicts are unhashable, a tuple is
    hashable when its members are. *)
Fixpoint hashable (o : pyobj) : bool :=
  match o with
  | PyList _ | PySet _ | PyDict _ => false
  | PyTuple l => forallb hashable l
  | _ => true
  end.

(** *** Dicts *)

Definition dict_items : Type := list (pyobj * pyobj).

(** [d[key]] for a key that is a string literal of the source. *)
Definition is_key (key : string) (k : pyobj) : bool :=
  match k with
  | PyStr s => String.eqb s key
  | _ => false
  end.

Fixpoint dict_get (items : dict_items) (key : string) : option pyobj :=
  match items with
  | [] => None
  | (k, v) :: rest => if is_key key k then Some v else dict_get rest key
  end.

(** [d[k] = v] on the entries: an equal key keeps its place and takes the new
    value, a new key goes last. *)
Fixpoint dict_set (items : dict_items) (k v : pyobj) : dict_items :=
  match items with
  | [] => [(k, v)]
  | (k0, v0) :: rest =>
      if py_eqb k0 k then (k0, v) :: rest else (k0, v0) :: dict_set rest k v
  end.

(** [d[k] = v] with the hashing it starts with. *)
Definition dict_setitem (items : dict_items) (k v : pyobj) : result dict_items :=
  if hashable k then Ok (dict_set items k v) else Raise TypeError.

(** [d[key]] on any object: only a dict is subscriptable by a string. *)
Definition getitem (d : pyobj) (key : string) : result pyobj :=
  match d with
  | PyDict items =>
      match dict_get items key with
      | Some v => Ok v
      | None => Raise KeyError
      end
  | _ => Raise TypeError
  end.

(** [d.get(key, default)], used by the source only after [d[...]] went
    through, that is on a dict. *)
Definition dict_get_default (d : pyobj) (key : string) (default : pyobj)
  : result pyobj :=
  match d with
  | PyDict items =>
      Ok (match dict_get items key with Some v => v | None => default end)
  | _ => Raise AttributeError
  end.

Section GetItemK.
Context {R : Type}.
Variable key : string.
Variable missing : R.
Variable found : pyobj -> R.

(** [dict_get] with the rest of the computation as [found]: the value is
    handed over as a part of [items], so a recursive call on it is
    structural.  [dict_get_k_spec] relates it to [dict_get]. *)
Fixpoint dict_get_k (items : dict_items) : R :=
  match items with
  | [] => missing
  | (k, v) :: rest => if is_key key k then found v else dict_get_k rest
  end.
End GetItemK.

(** [v = d[key]; found v] (see [getitem_k_spec]). *)
Definition getitem_k (d : pyobj) (key : string)
    (found : pyobj -> result pyobj) : result pyobj :=
  match d with
  | PyDict items => dict_get_k key (Raise KeyError) found items
  | _ => Raise TypeError
  end.

Section DictComprehension.
Variable f : pyobj -> result pyobj.

(** [dict((f(k), f(v)) for k, v in items)]: each pair is computed, key
    first, and stored before the next pair is looked at. *)
Fixpoint dict_comprehension_from (acc items : dict_items) : result dict_items :=
  match items with
  | [] => Ok acc
  | (k, v) :: rest =>
      k' <- f k ;;
      v' <- f v ;;
      acc' <- dict_setitem acc k' v' ;;
      dict_comprehension_from acc' rest
  end.

Definition dict_comprehension (items : dict_items) : result pyobj :=
  d <- dict_comprehension_from [] items ;; Ok (PyDict d).
End DictComprehension.

(** *** Iteration, [set(...)], indexing *)

Fixpoint chars (s : string) : list pyobj :=
  match s with
  | EmptyString => []
  | String c rest => PyStr (String c EmptyString) :: chars rest
  end.

(** [for x in o]: the members of a list, tuple or set, the keys of a dict, the
    characters of a string. *)
Definition py_iter (o : pyobj) : result (list pyobj) :=
  match o with
  | PyList l | PyTuple l | PySet l => Ok l
  | PyDict items => Ok (map fst items)
  | PyStr s => Ok (chars s)
  | _ => Raise TypeError
  end.

Fixpoint set_add (members : list pyobj) (x : pyobj) : list pyobj :=
  match members with
  | [] => [x]
  | m :: rest => if py_eqb m x then members else m :: set_add rest x
  end.

Fixpoint set_from (acc l : list pyobj) : result (list pyobj) :=
  match l with
  | [] => Ok acc
  | x :: rest => if hashable x then set_from (set_add acc x) rest else Raise TypeError
  end.

(** [set(o)]. *)
Definition py_set (o : pyobj) : result pyobj :=
  l <- py_iter o ;; members <- set_from [] l ;; Ok (PySet members).

(** [o[i]] for an integer literal [i] of the source. *)
Definition py_index (o : pyobj) (i : nat) : result pyobj :=
  match o with
  | PyList l | PyTuple l =>
      match nth_error l i with Some x => Ok x | None => Raise IndexError end
  | PyStr s =>
      match nth_error (chars s) i with Some x => Ok x | None => Raise IndexError end
  | PyDict items =>
      match find (fun kv => py_eqb (fst kv) (PyInt (Z.of_nat i))) items with
      | Some kv => Ok (snd kv)
      | None => Raise KeyError
      end
  | _ => Raise TypeError
  end.

(** *** Numbers *)

(** [int(x)] of a float truncates towards zero. *)
Definition float_trunc (x : spec_float) : result Z :=
  match x with
  | S754_zero _ => Ok 0
  | S754_infinity _ => Raise OverflowError
  | S754_nan => Raise ValueError
  | S754_finite s m e =>
      let a := if 0 <=? e then Z.pos m * 2 ^ e else Z.pos m / 2 ^ (- e) in
      Ok (if s then - a else a)
  end.

(** [float(n)] of an integer rounds to the nearest binary64 value. *)
Definition float_of_Z (n : Z) : result spec_float :=
  match binary_normalize 53 1024 n 0 false with
  | S754_infinity _ => Raise OverflowError
  | x => Ok x
  end.

Section Numbers.
Context {RT : Runtime}.

(** The integer that [int(v)] and [long(v)] build. *)
Definition py_int_value (v : pyobj) : result Z :=
  match v with
  | PyBool b => Ok (Z.b2z b)
  | PyInt n | PyLong n => Ok n
  | PyFloat x => float_trunc x
  | PyStr s =>
      match int_of_str s with Some n => Ok n | None => Raise ValueError end
  | _ => Raise TypeError
  end.

(** [float(v)]. *)
Definition py_float_value (v : pyobj) : result spec_float :=
  match v with
  | PyFloat x => Ok x
  | PyBool b => float_of_Z (Z.b2z b)
  | PyInt n | PyLong n => float_of_Z n
  | PyStr s =>
      match float_of_str s with Some x => Ok x | None => Raise ValueError end
  | _ => Raise TypeError
  end.
End Numbers.

(** *** Strings *)

(** The ASCII characters [str.strip()] removes. *)
Definition is_space (c : ascii) : bool :=
  let n := nat_of_ascii c in
  ((9 <=? n) && (n <=? 13) || (28 <=? n) && (n <=? 32))%nat.

Fixpoint lstrip (s : string) : string :=
  match s with
  | String c rest => if is_space c then lstrip rest else s
  | EmptyString => EmptyString
  end.

Fixpoint rstrip (s : string) : string :=
  match s with
  | EmptyString => EmptyString
  | String c rest =>
      match rstrip rest with
      | EmptyString => if is_space c then EmptyString else String c EmptyString
      | rest' => String c rest'
      end
  end.

Definition strip (s : string) : string := rstrip (lstrip s).

Definition startswith (s prefix : string) : bool := String.prefix prefix s.

(** ** The codec units and the two registries *)

(** The classes of the module that have [GraphSONTypeType] as metaclass, in
    the order of their definition. *)
Inductive codec : Set :=
| _GraphSONTypeIO
| _BytecodeSerializer | TraversalSerializer | BytecodeSerializer
| TraversalStrategySerializer | TraverserIO | EnumSerializer | PSerializer
| BindingSerializer | LambdaSerializer | TypeSerializer
| _NumberIO | FloatIO | DoubleIO | Int64IO | Int32IO
| VertexDeserializer | EdgeDeserializer | VertexPropertyDeserializer
| PropertyDeserializer | PathDeserializer.

Definition class_definitions : list codec :=
  [ _GraphSONTypeIO; _BytecodeSerializer; TraversalSerializer;
    BytecodeSerializer; TraversalStrategySerializer; TraverserIO;
    EnumSerializer; PSerializer; BindingSerializer; LambdaSerializer;
    TypeSerializer; _NumberIO; FloatIO; DoubleIO; Int64IO; Int32IO;
    VertexDeserializer; EdgeDeserializer; VertexPropertyDeserializer;
    PropertyDeserializer; PathDeserializer ].

(** The [name] the metaclass receives. *)
Definition name_of (cls : codec) : string :=
  match cls with
  | _GraphSONTypeIO => "_GraphSONTypeIO"
  | _BytecodeSerializer => "_BytecodeSerializer"
  | TraversalSerializer => "TraversalSerializer"
  | BytecodeSerializer => "BytecodeSerializer"
  | TraversalStrategySerializer => "TraversalStrategySerializer"
  | TraverserIO => "TraverserIO"
  | EnumSerializer => "EnumSerializer"
  | PSerializer => "PSerializer"
  | BindingSerializer => "BindingSerializer"
  | LambdaSerializer => "LambdaSerializer"
  | TypeSerializer => "TypeSerializer"
  | _NumberIO => "_NumberIO"
  | FloatIO => "FloatIO"
  | DoubleIO => "DoubleIO"
  | Int64IO => "Int64IO"
  | Int32IO => "Int32IO"
  | VertexDeserializer => "VertexDeserializer"
  | EdgeDeserializer => "EdgeDeserializer"
  | VertexPropertyDeserializer => "VertexPropertyDeserializer"
  | PropertyDeserializer => "PropertyDeserializer"
  | PathDeserializer => "PathDeserializer"
  end.

(** The class attribute [python_type], inherited where a class does not set
    it ([DoubleIO] has that of [FloatIO]); [None] is that of
    [_GraphSONTypeIO]. *)
Definition python_type (cls : codec) : option Cls.t :=
  match cls with
  | TraversalSerializer => Some Cls.Traversal
  | BytecodeSerializer => Some Cls.Bytecode
  | TraversalStrategySerializer => Some Cls.TraversalStrategy
  | TraverserIO => Some Cls.Traverser
  | EnumSerializer => Some Cls.Enum
  | PSerializer => Some Cls.P
  | BindingSerializer => Some Cls.Binding
  | LambdaSerializer => Some Cls.FunctionType
  | TypeSerializer => Some Cls.TypeType
  | FloatIO | DoubleIO => Some Cls.FloatType
  | Int64IO => Some Cls.LongType
  | Int32IO => Some Cls.IntType
  | _ => None
  end.

Definition graphson_type (cls : codec) : option string :=
  match cls with
  | TraverserIO => Some "g:Traverser"
  | FloatIO => Some "g:Float"
  | DoubleIO => Some "g:Double"
  | Int64IO => Some "g:Int64"
  | Int32IO => Some "g:Int32"
  | VertexDeserializer => Some "g:Vertex"
  | EdgeDeserializer => Some "g:Edge"
  | VertexPropertyDeserializer => Some "g:VertexProperty"
  | PropertyDeserializer => Some "g:Property"
  | PathDeserializer => Some "g:Path"
  | _ => None
  end.

Definition graphson_base_type (cls : codec) : option string :=
  match cls with
  | FloatIO => Some "Float"
  | DoubleIO => Some "Double"
  | Int64IO => Some "Int64"
  | Int32IO => Some "Int32"
  | _ => None
  end.

Section Assoc.
Context {K V : Type}.
Variable eqb : K -> K -> bool.

(** [d[k]] of a registry. *)
Fixpoint assoc_get (d : list (K * V)) (k : K) : option V :=
  match d with
  | [] => None
  | (k0, v0) :: rest => if eqb k0 k then Some v0 else assoc_get rest k
  end.

(** [d[k] = v] of a registry: a key already there keeps its place. *)
Fixpoint assoc_set (d : list (K * V)) (k : K) (v : V) : list (K * V) :=
  match d with
  | [] => [(k, v)]
  | (k0, v0) :: rest =>
      if eqb k0 k then (k0, v) :: rest else (k0, v0) :: assoc_set rest k v
  end.

(** [d.update(other)]. *)
Definition assoc_update (d other : list (K * V)) : list (K * V) :=
  fold_left (fun acc kv => assoc_set acc (fst kv) (snd kv)) other d.
End Assoc.

Definition serializer_map_t : Type := list (Cls.t * codec).
Definition deserializer_map_t : Type := list (string * codec).

(** [GraphSONTypeType.__new__]: what creating the class [cls] does to the two
    module-level dicts. *)
Definition GraphSONTypeType_new (maps : serializer_map_t * deserializer_map_t)
    (cls : codec) : serializer_map_t * deserializer_map_t :=
  let (sers, desers) := maps in
  if negb (startswith (name_of cls) "_") then
    let sers' :=
      match python_type cls with
      | Some t => assoc_set Cls.eqb sers t cls
      | None => sers
      end in
    let desers' :=
      match graphson_type cls with
      | Some tag => assoc_set String.eqb desers tag cls
      | None => desers
      end in
    (sers', desers')
  else maps.

(** The module-level dicts once the module is imported. *)
Definition module_maps : serializer_map_t * deserializer_map_t :=
  fold_left GraphSONTypeType_new class_definitions ([], []).

Definition _serializers : serializer_map_t := fst module_maps.
Definition _deserializers : deserializer_map_t := snd module_maps.

(** ** GraphSONIO *)

Record GraphSONIO : Type := {
  serializers : serializer_map_t;
  deserializers : deserializer_map_t
}.

(** [GraphSONIO.__init__]. *)
Definition GraphSONIO_init (serializer_map : option serializer_map_t)
    (deserializer_map : option deserializer_map_t) : GraphSONIO :=
  {| serializers :=
       match serializer_map with
       | Some m => assoc_update Cls.eqb _serializers m
       | None => _serializers
       end;
     deserializers :=
       match deserializer_map with
       | Some m => assoc_update String.eqb _deserializers m
       | None => _deserializers
       end |}.

(** [GraphSONIO()]. *)
Definition default_io : GraphSONIO := GraphSONIO_init None None.

Definition _TYPE_KEY : string := "@type".
Definition _VALUE_KEY : string := "@value".

(** [GraphSONIO.typedValue]; the default of [prefix] is [default_prefix]. *)
Definition typedValue (type_name : string) (value : pyobj) (prefix : string)
  : pyobj :=
  let out := [(PyStr _TYPE_KEY, PyStr (prefix ++ ":" ++ type_name))] in
  if negb (is_None value)
  then PyDict (dict_set out (PyStr _VALUE_KEY) value)
  else PyDict out.

Definition default_prefix : string := "g".

(** ** The codec units

    Each unit is written over [toDict] and [toObject], the two methods of the
    session it is handed as [graphson_io]; the session ties the knot below. *)

Definition symbolMap : list (string * string) :=
  [ ("global_", "global"); ("as_", "as"); ("in_", "in"); ("and_", "and");
    ("or_", "or"); ("is_", "is"); ("not_", "not"); ("from_", "from");
    ("set_", "set"); ("list_", "list"); ("all_", "all") ].

(** [_GraphSONTypeIO.unmangleKeyword]. *)
Definition unmangleKeyword (symbol : string) : string :=
  match assoc_get String.eqb symbolMap symbol with
  | Some s => s
  | None => symbol
  end.

Section CodecUnits.
Context {RT : Runtime}.
Variable toDict : pyobj -> result pyobj.
Variable toObject : pyobj -> result pyobj.

(** [_BytecodeSerializer._dictify_instructions]. *)
Definition _dictify_instructions (instructions : list (list pyobj))
  : result pyobj :=
  out <- mapM (fun instruction =>
                 match instruction with
                 | [] => Raise IndexError
                 | op :: args =>
                     args' <- mapM toDict args ;; Ok (PyList (op :: args'))
                 end) instructions ;;
  Ok (PyList out).

(** The body of [_BytecodeSerializer.dictify] once [bytecode] is the
    Bytecode itself. *)
Definition dictify_bytecode (bytecode : pyobj) : result pyobj :=
  match bytecode with
  | Bytecode source_instructions step_instructions =>
      out <- match source_instructions with
             | [] => Ok []
             | _ => s <- _dictify_instructions source_instructions ;;
                    Ok (dict_set [] (PyStr "source") s)
             end ;;
      out <- match step_instructions with
             | [] => Ok out
             | _ => s <- _dictify_instructions step_instructions ;;
                    Ok (dict_set out (PyStr "step") s)
             end ;;
      Ok (typedValue "Bytecode" (PyDict out) default_prefix)
  | _ => Raise AttributeError
  end.

(** [_BytecodeSerializer.dictify]. *)
Definition _BytecodeSerializer_dictify (bytecode : pyobj) : result pyobj :=
  match bytecode with
  | Traversal bytecode' => dictify_bytecode bytecode'
  | _ => dictify_bytecode bytecode
  end.

(** [TraversalStrategySerializer.dictify]. *)
Definition TraversalStrategySerializer_dictify (strategy : pyobj)
  : result pyobj :=
  match strategy with
  | TraversalStrategy strategy_name configuration =>
      c <- toDict configuration ;;
      Ok (typedValue strategy_name c default_prefix)
  | _ => Raise AttributeError
  end.

(** [TraverserIO.dictify]. *)
Definition TraverserIO_dictify (traverser : pyobj) : result pyobj :=
  match traverser with
  | Traverser object bulk =>
      v <- toDict object ;;
      b <- toDict bulk ;;
      Ok (typedValue "Traverser"
            (PyDict [(PyStr "value", v); (PyStr "bulk", b)]) default_prefix)
  | _ => Raise AttributeError
  end.

(** [TraverserIO.objectify]. *)
Definition TraverserIO_objectify (d : pyobj) : result pyobj :=
  getitem_k d "value" (fun v =>
    object <- toObject v ;;
    getitem_k d "bulk" (fun b =>
      bulk <- toObject b ;;
      Ok (Traverser object bulk))).

(** [EnumSerializer.dictify]. *)
Definition EnumSerializer_dictify (enum : pyobj) : result pyobj :=
  match enum with
  | EnumMember type_name name =>
      Ok (typedValue (unmangleKeyword type_name)
            (PyStr (unmangleKeyword name)) default_prefix)
  | _ => Raise AttributeError
  end.

(** [PSerializer.dictify]. *)
Definition PSerializer_dictify (p : pyobj) : result pyobj :=
  match p with
  | P operator value other =>
      v <- (if negb (is_None other)
            then a <- toDict value ;; b <- toDict other ;; Ok (PyList [a; b])
            else toDict value) ;;
      Ok (typedValue "P"
            (PyDict [(PyStr "predicate", PyStr operator); (PyStr "value", v)])
            default_prefix)
  | _ => Raise AttributeError
  end.

(** [BindingSerializer.dictify]. *)
Definition BindingSerializer_dictify (binding : pyobj) : result pyobj :=
  match binding with
  | Binding key value =>
      v <- toDict value ;;
      Ok (typedValue "Binding"
            (PyDict [(PyStr "key", PyStr key); (PyStr "value", v)])
            default_prefix)
  | _ => Raise AttributeError
  end.

(** [LambdaSerializer.dictify]; [eval] and the inspection of the function it
    returns are [eval_co_argcount]. *)
Definition LambdaSerializer_dictify (lambda_object : pyobj) : result pyobj :=
  match lambda_object with
  | PyFunction lambda_result =>
      let is_str := isinstance lambda_result Cls.py_str in
      script <- (if is_str then Ok lambda_result
                 else py_index lambda_result 0) ;;
      language <- (if is_str then Ok (PyStr default_lambda_language)
                   else py_index lambda_result 1) ;;
      if py_eqb language (PyStr "gremlin-jython")
         || py_eqb language (PyStr "gremlin-python")
      then
        match script with
        | PyStr s =>
            let s' := if negb (startswith (strip s) "lambda")
                      then "lambda " ++ s else s in
            arguments <- eval_co_argcount s' ;;
            Ok (typedValue "Lambda"
                  (PyDict [(PyStr "script", PyStr s');
                           (PyStr "language", language);
                           (PyStr "arguments", arguments)]) default_prefix)
        | _ => Raise AttributeError
        end
      else
        Ok (typedValue "Lambda"
              (PyDict [(PyStr "script", script);
                       (PyStr "language", language);
                       (PyStr "arguments", PyInt (-1))]) default_prefix)
  | _ => Raise TypeError
  end.

(** [TypeSerializer.dictify]. *)
Definition TypeSerializer_dictify (typ : pyobj) : result pyobj :=
  match typ with
  | PyType instance => toDict instance
  | _ => Raise TypeError
  end.

(** [_NumberIO.dictify], a classmethod: [cls] is the class it is called
    on. *)
Definition _NumberIO_dictify (cls : codec) (n : pyobj) : result pyobj :=
  if isinstance n Cls.py_bool then Ok n
  else match graphson_base_type cls with
       | Some base => Ok (typedValue base n default_prefix)
       | None => Raise AttributeError
       end.

(** [_NumberIO.objectify]: [cls.python_type(v)]. *)
Definition _NumberIO_objectify (cls : codec) (v : pyobj) : result pyobj :=
  match python_type cls with
  | Some Cls.FloatType => x <- py_float_value v ;; Ok (PyFloat x)
  | Some Cls.LongType => n <- py_int_value v ;; Ok (PyLong n)
  | Some Cls.IntType => n <- py_int_value v ;; Ok (PyInt n)
  | _ => Raise TypeError
  end.

(** [VertexDeserializer.objectify]. *)
Definition VertexDeserializer_objectify (d : pyobj) : result pyobj :=
  getitem_k d "id" (fun i =>
    id <- toObject i ;;
    label <- dict_get_default d "label" (PyStr "") ;;
    Ok (Vertex id label)).

(** [EdgeDeserializer.objectify]. *)
Definition EdgeDeserializer_objectify (d : pyobj) : result pyobj :=
  getitem_k d "id" (fun i =>
    id <- toObject i ;;
    getitem_k d "outV" (fun o =>
      outV <- toObject o ;;
      label <- dict_get_default d "label" (PyStr "vertex") ;;
      getitem_k d "inV" (fun n =>
        inV <- toObject n ;;
        Ok (Edge id (Vertex outV (PyStr "")) label (Vertex inV (PyStr "")))))).

(** [VertexPropertyDeserializer.objectify]. *)
Definition VertexPropertyDeserializer_objectify (d : pyobj) : result pyobj :=
  getitem_k d "id" (fun i =>
    id <- toObject i ;;
    getitem_k d "label" (fun label =>
      getitem_k d "value" (fun v =>
        value <- toObject v ;;
        Ok (VertexProperty id label value)))).

(** [PropertyDeserializer.objectify]. *)
Definition PropertyDeserializer_objectify (d : pyobj) : result pyobj :=
  getitem_k d "key" (fun key =>
    getitem_k d "value" (fun v =>
      value <- toObject v ;;
      Ok (Property key value))).

(** [[graphson_io.toObject(o) for o in os]]; the characters of a string are
    strings, which [toObject] returns as they are. *)
Definition objectify_each (os : pyobj) : result (list pyobj) :=
  match os with
  | PyList l | PyTuple l | PySet l => mapM toObject l
  | PyDict items => mapM (fun kv => toObject (fst kv)) items
  | PyStr s => Ok (chars s)
  | _ => Raise TypeError
  end.

(** [PathDeserializer.objectify]. *)
Definition PathDeserializer_objectify (d : pyobj) : result pyobj :=
  getitem_k d "labels" (fun ls =>
    it <- py_iter ls ;;
    labels <- mapM py_set it ;;
    getitem_k d "objects" (fun os =>
      objects <- objectify_each os ;;
      Ok (Path labels objects))).

(** [serializer.dictify(obj, graphson_io)] for a registered class.  A class
    that defines no [dictify] has the one of [_GraphSONTypeIO], which is a
    plain method, not a classmethod: called on the class, as the registries
    hold it, it is one argument short and the call raises TypeError before
    the body ([raise NotImplementedError()]) is reached. *)
Definition dictify (serializer : codec) (obj : pyobj) : result pyobj :=
  match serializer with
  | _BytecodeSerializer | TraversalSerializer | BytecodeSerializer =>
      _BytecodeSerializer_dictify obj
  | TraversalStrategySerializer => TraversalStrategySerializer_dictify obj
  | TraverserIO => TraverserIO_dictify obj
  | EnumSerializer => EnumSerializer_dictify obj
  | PSerializer => PSerializer_dictify obj
  | BindingSerializer => BindingSerializer_dictify obj
  | LambdaSerializer => LambdaSerializer_dictify obj
  | TypeSerializer => TypeSerializer_dictify obj
  | _NumberIO | FloatIO | DoubleIO | Int64IO | Int32IO =>
      _NumberIO_dictify serializer obj
  | _ => Raise TypeError
  end.

(** [deserializer.objectify(d, graphson_io)] for a registered class; a class
    that defines no [objectify] has the plain method of [_GraphSONTypeIO], as
    for [dictify]. *)
Definition objectify (deserializer : codec) (d : pyobj) : result pyobj :=
  match deserializer with
  | TraverserIO => TraverserIO_objectify d
  | _NumberIO | FloatIO | DoubleIO | Int64IO | Int32IO =>
      _NumberIO_objectify deserializer d
  | VertexDeserializer => VertexDeserializer_objectify d
  | EdgeDeserializer => EdgeDeserializer_objectify d
  | VertexPropertyDeserializer => VertexPropertyDeserializer_objectify d
  | PropertyDeserializer => PropertyDeserializer_objectify d
  | PathDeserializer => PathDeserializer_objectify d
  | _ => Raise TypeError
  end.
End CodecUnits.

(** ** The session: [toDict] and [toObject] *)

Section Session.
Context {RT : Runtime}.
Variable self : GraphSONIO.

(** The first entry of [self.serializers.items()] whose key [obj] is an
    instance of. *)
Definition find_serializer (obj : pyobj) : option (Cls.t * codec) :=
  find (fun entry => isinstance obj (fst entry)) (serializers self).

(** [GraphSONIO.toDict]. *)
Fixpoint toDict (obj : pyobj) : result pyobj :=
  match find_serializer obj with
  | Some (_, serializer) => dictify toDict serializer obj
  | None =>
      match obj with
      | PyList l | PySet l => l' <- mapM toDict l ;; Ok (PyList l')
      | PyDict items => dict_comprehension toDict items
      | _ => Ok obj
      end
  end.

(** [self.deserializers[tag]]. *)
Definition lookup_deserializer (tag : pyobj) : result codec :=
  match tag with
  | PyStr s =>
      match assoc_get String.eqb (deserializers self) s with
      | Some deserializer => Ok deserializer
      | None => Raise KeyError
      end
  | _ => if hashable tag then Raise KeyError else Raise TypeError
  end.

(** [GraphSONIO.toObject]. *)
Fixpoint toObject (obj : pyobj) : result pyobj :=
  match obj with
  | PyDict items =>
      try_except_KeyError
        (dict_get_k _TYPE_KEY (Raise KeyError) (fun tag =>
           deserializer <- lookup_deserializer tag ;;
           dict_get_k _VALUE_KEY (Raise KeyError) (fun value =>
             objectify toObject deserializer value) items) items)
        (dict_comprehension toObject items)
  | PyList l => l' <- mapM toObject l ;; Ok (PyList l')
  | _ => Ok obj
  end.
End Session.


(** ** Notions the statements below are written with *)

(** The envelope of the wire format: [{"@type": tag, "@value": payload}]. *)
Definition envelope (tag : string) (payload : pyobj) : pyobj :=
  PyDict [(PyStr _TYPE_KEY, PyStr tag); (PyStr _VALUE_KEY, payload)].

(** The values that the codec units handle in both directions: the numbers
    (a boolean goes through the numeric units too) and the traversers built
    from such values, which have a [dictify] and an [objectify]; and the
    graph elements, which only an [objectify] builds and which no [dictify]
    is registered for, so that neither walk touches them. *)
Fixpoint codec_handled (obj : pyobj) : bool :=
  match obj with
  | PyBool _ | PyInt _ | PyLong _ | PyFloat _ => true
  | Traverser object bulk => codec_handled object && codec_handled bulk
  | Vertex _ _ | Edge _ _ _ _ | VertexProperty _ _ _ | Property _ _
  | Path _ _ => true
  | _ => false
  end.

(** The values that only a unit with a [dictify] handles: their envelopes
    have no [objectify] to go back through. *)
Definition encoder_only (obj : pyobj) : bool :=
  match obj with
  | Bytecode _ _ | Traversal _ | TraversalStrategy _ _ | EnumMember _ _
  | P _ _ _ | Binding _ _ | PyFunction _ => true
  | _ => false
  end.

(** The keys a decoder reads with [d[key]], in the order it reads them. *)
Definition required_fields (deserializer : codec) : list string :=
  match deserializer with
  | TraverserIO => ["value"; "bulk"]
  | VertexDeserializer => ["id"]
  | EdgeDeserializer => ["id"; "outV"; "inV"]
  | VertexPropertyDeserializer => ["id"; "label"; "value"]
  | PropertyDeserializer => ["key"; "value"]
  | PathDeserializer => ["labels"; "objects"]
  | _ => []
  end.

(** What a decoder does with the value [v] it has read under [field], before
    it reads the next field: the "label" of a vertex property and the "key"
    of a property are taken as they are, the "labels" of a path are iterated
    and each of them is made a set, the "objects" of a path are decoded one
    by one, and every other value is decoded with [toObject]. *)
Definition decode_field (toObject' : pyobj -> result pyobj)
    (deserializer : codec) (field : string) (v : pyobj) : result unit :=
  match deserializer with
  | VertexPropertyDeserializer =>
      if (field =? "label")%string then Ok tt
      else decoded <- toObject' v ;; Ok tt
  | PropertyDeserializer =>
      if (field =? "key")%string then Ok tt
      else decoded <- toObject' v ;; Ok tt
  | PathDeserializer =>
      if (field =? "labels")%string
      then it <- py_iter v ;; labels <- mapM py_set it ;; Ok tt
      else objects <- objectify_each toObject' v ;; Ok tt
  | _ => decoded <- toObject' v ;; Ok tt
  end.

(** Reading the fields [fields] of the payload [d] one after the other, as a
    decoder does: [d[field]], then [decode_field] on the value. *)
Fixpoint read_fields (toObject' : pyobj -> result pyobj)
    (deserializer : codec) (d : pyobj) (fields : list string) : result unit :=
  match fields with
  | [] => Ok tt
  | field :: rest =>
      v <- getitem d field ;;
      done <- decode_field toObject' deserializer field v ;;
      read_fields toObject' deserializer d rest
  end.

(** The dict that holds the given pairs, stored one after the other. *)
Definition dict_of_pairs (pairs : dict_items) : dict_items :=
  fold_left (fun acc kv => dict_set acc (fst kv) (snd kv)) pairs [].

(** [encoded] is the instruction [instruction] with its op-name as it is and
    each argument replaced by what [encode] returns for it. *)
Definition instruction_encoded (encode : pyobj -> result pyobj)
    (instruction : list pyobj) (encoded : pyobj) : Prop :=
  exists op args args',
    instruction = op :: args
    /\ Forall2 (fun a a' => encode a = Ok a') args args'
    /\ encoded = PyList (op :: args').

(** The entry of a Bytecode payload for one instruction list: none when the
    list is empty. *)
Definition optional_entry (key : string) (encoded : list pyobj) : dict_items :=
  match encoded with
  | [] => []
  | _ => [(PyStr key, PyList encoded)]
  end.

(** The four numeric units. *)
Definition numeric_units : list codec := [FloatIO; DoubleIO; Int64IO; Int32IO].

(** A number that is not a boolean. *)
Definition is_number (n : pyobj) : bool :=
  match n with
  | PyInt _ | PyLong _ | PyFloat _ => true
  | _ => false
  end.

(** A host to evaluate examples on: Python 3, with parsers and an [eval] that
    reject every string (no example below gives them one). *)
Definition example_host : Runtime :=
  {| PY3 := true;
     default_lambda_language := "gremlin-python";
     eval_co_argcount := fun _ => Raise ValueError;
     int_of_str := fun _ => None;
     float_of_str := fun _ => None |}.

(** What the metaclass keeps true of the two module-level dicts: no key
    twice, every class under its own [python_type] or [graphson_type], and
    no class whose name starts with an underscore. *)
Definition registered_consistently
    (maps : serializer_map_t * deserializer_map_t) : Prop :=
  NoDup (map fst (fst maps))
  /\ NoDup (map fst (snd maps))
  /\ (forall t cls, In (t, cls) (fst maps) ->
        python_type cls = Some t /\ startswith (name_of cls) "_" = false)
  /\ (forall tag cls, In (tag, cls) (snd maps) ->
        graphson_type cls = Some tag /\ startswith (name_of cls) "_" = false).

(** The map a caller hands to [GraphSONIO.__init__], empty when it is None. *)
Definition given {K V : Type} (map : option (list (K * V))) : list (K * V) :=
  match map with
  | Some m => m
  | None => []
  end.

(** The keys are strings, no two of them equal. *)
Fixpoint distinct_str_keys (keys : list pyobj) : bool :=
  match keys with
  | [] => true
  | k :: rest =>
      match k with PyStr _ => true | _ => false end
      && negb (existsb (py_eqb k) rest)
      && distinct_str_keys rest
  end.

(** No dict that [toObject] comes to (through lists and the values of dicts)
    looks like an envelope: its keys are distinct strings, none of them
    "@type". *)
Fixpoint untagged (obj : pyobj) : bool :=
  match obj with
  | PyList l => forallb untagged l
  | PyDict items =>
      distinct_str_keys (map fst items)
      && negb (existsb (is_key _TYPE_KEY) (map fst items))
      && forallb (fun kv => untagged (snd kv)) items
  | _ => true
  end.

(** Data as a JSON document has it, with the traversers around it: None,
    booleans, numbers, strings, lists of such values, dicts of such values
    under distinct string keys other than "@type". *)
Fixpoint json_data (obj : pyobj) : bool :=
  match obj with
  | PyNone | PyBool _ | PyInt _ | PyLong _ | PyFloat _ | PyStr _ => true
  | PyList l => forallb json_data l
  | PyDict items =>
      distinct_str_keys (map fst items)
      && negb (existsb (is_key _TYPE_KEY) (map fst items))
      && forallb (fun kv => json_data (snd kv)) items
  | Traverser object bulk => json_data object && json_data bulk
  | _ => false
  end.

(** * Properties *)

Section Theory.
Context {RT : Runtime}.

(** ** Results and sequences *)

Lemma bind_Ok {A B : Type} (r : result A) (k : A -> result B) (b : B) :
  (x <- r ;; k x) = Ok b -> exists a, r = Ok a /\ k a = Ok b.
Proof.
  destruct r as [a|e]; simpl; intros H; [eauto | discriminate].
Qed.

Lemma try_except_KeyError_caught {A : Type} (body handler : result A) :
  body = Raise KeyError -> try_except_KeyError body handler = handler.
Proof. intros ->. reflexivity. Qed.

Lemma try_except_KeyError_passes {A : Type} (body handler : result A) :
  body <> Raise KeyError -> try_except_KeyError body handler = body.
Proof.
  intros H. destruct body as [a|e]; [reflexivity|].
  destruct e; try reflexivity. congruence.
Qed.

Lemma try_except_not_KeyError {A : Type} (body handler : result A) :
  handler <> Raise KeyError ->
  try_except_KeyError body handler <> Raise KeyError.
Proof.
  intros H. destruct body as [a|e]; simpl; [discriminate|].
  destruct e; auto; discriminate.
Qed.

Lemma mapM_Forall2 {A B : Type} (f : A -> result B) (l : list A) (l' : list B) :
  mapM f l = Ok l' <-> Forall2 (fun a b => f a = Ok b) l l'.
Proof.
  revert l'. induction l as [|a rest IH]; intros l'; simpl.
  - split; intros H.
    + injection H as <-. constructor.
    + inversion H. reflexivity.
  - split; intros H.
    + apply bind_Ok in H as (b & Hb & H).
      apply bind_Ok in H as (bs & Hbs & H).
      injection H as <-. constructor; [assumption | now apply IH].
    + inversion H as [|? b ? bs Hb Hbs]; subst.
      rewrite Hb. simpl. apply IH in Hbs. rewrite Hbs. reflexivity.
Qed.

(** ** Dict access *)

Lemma dict_get_k_spec {R : Type} (key : string) (missing : R)
    (found : pyobj -> R) (items : dict_items) :
  dict_get_k key missing found items =
  match dict_get items key with
  | Some v => found v
  | None => missing
  end.
Proof.
  induction items as [|[k v] rest IH]; simpl; [reflexivity|].
  destruct (is_key key k); auto.
Qed.

Lemma getitem_k_spec (d : pyobj) (key : string)
    (found : pyobj -> result pyobj) :
  getitem_k d key found = (v <- getitem d key ;; found v).
Proof.
  destruct d; simpl; try reflexivity.
  rewrite dict_get_k_spec. destruct (dict_get items key); reflexivity.
Qed.

Lemma getitem_missing (d : dict_items) (key : string) :
  dict_get d key = None -> getitem (PyDict d) key = Raise KeyError.
Proof. intros H. simpl. rewrite H. reflexivity. Qed.

Lemma getitem_present (d : dict_items) (key : string) (v : pyobj) :
  dict_get d key = Some v -> getitem (PyDict d) key = Ok v.
Proof. intros H. simpl. rewrite H. reflexivity. Qed.

(** ** The session methods, as the source writes them *)

Lemma toDict_eq (self : GraphSONIO) (obj : pyobj) :
  toDict self obj =
  match find_serializer self obj with
  | Some (_, serializer) => dictify (toDict self) serializer obj
  | None =>
      match obj with
      | PyList l | PySet l => l' <- mapM (toDict self) l ;; Ok (PyList l')
      | PyDict items => dict_comprehension (toDict self) items
      | _ => Ok obj
      end
  end.
Proof. destruct obj; reflexivity. Qed.

Lemma toObject_dict_eq (self : GraphSONIO) (items : dict_items) :
  toObject self (PyDict items) =
  try_except_KeyError
    (tag <- getitem (PyDict items) _TYPE_KEY ;;
     deserializer <- lookup_deserializer self tag ;;
     value <- getitem (PyDict items) _VALUE_KEY ;;
     objectify (toObject self) deserializer value)
    (dict_comprehension (toObject self) items).
Proof.
  cbn [toObject]. f_equal.
  rewrite dict_get_k_spec. cbn [getitem].
  destruct (dict_get items _TYPE_KEY) as [tag|]; [|reflexivity].
  cbn [bind]. destruct (lookup_deserializer self tag); [|reflexivity].
  cbn [bind]. rewrite dict_get_k_spec.
  destruct (dict_get items _VALUE_KEY); reflexivity.
Qed.

(** ** The registries of the module *)

Lemma _serializers_eq :
  _serializers =
  [ (Cls.Traversal, TraversalSerializer); (Cls.Bytecode, BytecodeSerializer);
    (Cls.TraversalStrategy, TraversalStrategySerializer);
    (Cls.Traverser, TraverserIO); (Cls.Enum, EnumSerializer);
    (Cls.P, PSerializer); (Cls.Binding, BindingSerializer);
    (Cls.FunctionType, LambdaSerializer); (Cls.TypeType, TypeSerializer);
    (Cls.FloatType, DoubleIO); (Cls.LongType, Int64IO);
    (Cls.IntType, Int32IO) ].
Proof. reflexivity. Qed.

Lemma _deserializers_eq :
  _deserializers =
  [ ("g:Traverser", TraverserIO); ("g:Float", FloatIO); ("g:Double", DoubleIO);
    ("g:Int64", Int64IO); ("g:Int32", Int32IO);
    ("g:Vertex", VertexDeserializer); ("g:Edge", EdgeDeserializer);
    ("g:VertexProperty", VertexPropertyDeserializer);
    ("g:Property", PropertyDeserializer); ("g:Path", PathDeserializer) ].
Proof. reflexivity. Qed.

Lemma find_serializer_default_bool (b : bool) :
  find_serializer default_io (PyBool b) = Some (Cls.IntType, Int32IO).
Proof. reflexivity. Qed.

Lemma find_serializer_default_int (n : Z) :
  find_serializer default_io (PyInt n) = Some (Cls.IntType, Int32IO).
Proof. reflexivity. Qed.

Lemma find_serializer_default_long (n : Z) :
  find_serializer default_io (PyLong n) = Some (Cls.LongType, Int64IO).
Proof. reflexivity. Qed.

Lemma find_serializer_default_float (x : spec_float) :
  find_serializer default_io (PyFloat x) = Some (Cls.FloatType, DoubleIO).
Proof. reflexivity. Qed.

Lemma find_serializer_default_Traverser (object bulk : pyobj) :
  find_serializer default_io (Traverser object bulk)
  = Some (Cls.Traverser, TraverserIO).
Proof. reflexivity. Qed.

Lemma find_serializer_default_P (operator : string) (value other : pyobj) :
  find_serializer default_io (P operator value other) = Some (Cls.P, PSerializer).
Proof. reflexivity. Qed.

Lemma find_serializer_default_Bytecode (source step : list (list pyobj)) :
  find_serializer default_io (Bytecode source step)
  = Some (Cls.Bytecode, BytecodeSerializer).
Proof. reflexivity. Qed.

Lemma assoc_get_set_same {V : Type} (d : list (Cls.t * V)) (k : Cls.t) (v : V) :
  assoc_get Cls.eqb (assoc_set Cls.eqb d k v) k = Some v.
Proof.
  assert (R : Cls.eqb k k = true)
    by (unfold Cls.eqb; destruct (Cls.eq_dec k k); congruence).
  induction d as [|[k0 v0] rest IH]; simpl; [now rewrite R|].
  destruct (Cls.eqb k0 k) eqn:E; simpl; rewrite E; auto.
Qed.

(** ** The envelope helper *)

(** C5: [typedValue] returns a mapping whose "@type" entry is the prefix, a
    colon and the type name; the mapping has the "@value" key exactly when
    the value is not None, and then holds the value under it; with a None
    value it has the type-tag key only.  The default prefix is "g". *)
Theorem typedValue_envelope (type_name : string) (value : pyobj)
    (prefix : string) :
  exists out,
    typedValue type_name value prefix = PyDict out
    /\ dict_get out _TYPE_KEY = Some (PyStr (prefix ++ ":" ++ type_name))
    /\ (dict_get out _VALUE_KEY <> None <-> value <> PyNone)
    /\ (value <> PyNone ->
        out = [(PyStr "@type", PyStr (prefix ++ ":" ++ type_name));
               (PyStr "@value", value)])
    /\ (value = PyNone ->
        out = [(PyStr "@type", PyStr (prefix ++ ":" ++ type_name))])
    /\ default_prefix = "g".
Proof.
  unfold typedValue.
  destruct (is_None value) eqn:E.
  - assert (value = PyNone) as -> by (destruct value; simpl in E; congruence).
    eexists. split; [reflexivity|]. simpl.
    repeat split; try reflexivity; intros H; congruence.
  - assert (value <> PyNone) by (intros ->; discriminate).
    eexists. split; [reflexivity|]. simpl.
    repeat split; try reflexivity; try discriminate; try congruence; auto.
Qed.

(** ** The numeric units *)

(** C6: on a boolean each numeric unit returns the boolean itself, never an
    envelope: the test comes first.  A number that is not a boolean is
    wrapped in the envelope of the unit's own tag (Float, Double, Int64,
    Int32).  Through the session with the default registry a boolean is
    encoded as itself as well. *)
Theorem number_dictify_boolean_bypass (cls : codec)
    (graphson_io_toDict : pyobj -> result pyobj) :
  In cls numeric_units ->
  (forall b, dictify graphson_io_toDict cls (PyBool b) = Ok (PyBool b))
  /\ (forall n, is_number n = true ->
        exists base,
          graphson_base_type cls = Some base
          /\ graphson_type cls = Some ("g:" ++ base)
          /\ In base ["Float"; "Double"; "Int64"; "Int32"]
          /\ dictify graphson_io_toDict cls n = Ok (envelope ("g:" ++ base) n))
  /\ (forall b, toDict default_io (PyBool b) = Ok (PyBool b)).
Proof.
  intros Hcls. split; [|split].
  - intros b. simpl in Hcls.
    destruct Hcls as [<-|[<-|[<-|[<-|[]]]]]; reflexivity.
  - intros n Hn. simpl in Hcls.
    destruct Hcls as [<-|[<-|[<-|[<-|[]]]]];
      destruct n; try discriminate Hn;
      eexists; (split; [reflexivity|]); (split; [reflexivity|]);
      (split; [simpl; tauto | reflexivity]).
  - intros b. rewrite toDict_eq, find_serializer_default_bool. reflexivity.
Qed.

(** ** Predicates *)

(** C7: a predicate is encoded as a g:P envelope whose payload maps
    "predicate" to the operator name and "value" to the encoded first operand
    when [other] is None, and to the two-element list of the encoded first and
    second operands when it is not.  With the default registry [toDict] hands
    a predicate to this unit. *)
Theorem P_dictify_shape (self : GraphSONIO) (operator : string)
    (value other value' : pyobj) :
  toDict self value = Ok value' ->
  (other = PyNone ->
     dictify (toDict self) PSerializer (P operator value other)
     = Ok (envelope "g:P"
             (PyDict [(PyStr "predicate", PyStr operator);
                      (PyStr "value", value')])))
  /\ (forall other', other <> PyNone -> toDict self other = Ok other' ->
        dictify (toDict self) PSerializer (P operator value other)
        = Ok (envelope "g:P"
                (PyDict [(PyStr "predicate", PyStr operator);
                         (PyStr "value", PyList [value'; other'])])))
  /\ toDict default_io (P operator value other)
     = dictify (toDict default_io) PSerializer (P operator value other).
Proof.
  intros Hv. split; [|split].
  - intros ->. cbn [dictify PSerializer_dictify is_None negb].
    rewrite Hv. reflexivity.
  - intros other' Hother Ho. cbn [dictify PSerializer_dictify].
    destruct other; try congruence; cbn [is_None negb];
      rewrite Hv; cbn [bind]; rewrite Ho; reflexivity.
  - rewrite toDict_eq, find_serializer_default_P. reflexivity.
Qed.

(** ** Registration of the float units *)

(** C10: with the default registry a float is encoded in a g:Double envelope,
    never a g:Float one.  [DoubleIO] inherits the [python_type] of [FloatIO]
    and is created after it, so whatever the dicts held, the entry for
    [FloatType] is [DoubleIO] once both classes exist; [FloatIO] is no value
    of the encode map, while the decode map keeps both tags. *)
Theorem float_encodes_as_Double (x : spec_float) :
  toDict default_io (PyFloat x) = Ok (envelope "g:Double" (PyFloat x))
  /\ toDict default_io (PyFloat x) <> Ok (envelope "g:Float" (PyFloat x))
  /\ python_type DoubleIO = python_type FloatIO
  /\ (forall maps,
        assoc_get Cls.eqb
          (fst (GraphSONTypeType_new (GraphSONTypeType_new maps FloatIO) DoubleIO))
          Cls.FloatType = Some DoubleIO)
  /\ assoc_get Cls.eqb (serializers default_io) Cls.FloatType = Some DoubleIO
  /\ ~ In FloatIO (map snd (serializers default_io))
  /\ assoc_get String.eqb (deserializers default_io) "g:Float" = Some FloatIO
  /\ assoc_get String.eqb (deserializers default_io) "g:Double" = Some DoubleIO.
Proof.
  assert (E : toDict default_io (PyFloat x)
              = Ok (envelope "g:Double" (PyFloat x))).
  { rewrite toDict_eq, find_serializer_default_float. reflexivity. }
  split; [exact E|]. split; [rewrite E; discriminate|].
  split; [reflexivity|]. split.
  { intros [sers desers]. cbn -[assoc_get assoc_set].
    apply assoc_get_set_same. }
  split; [reflexivity|]. split; [|split; reflexivity].
  cbn. intros H.
  repeat (destruct H as [H|H]; [discriminate H|]). exact H.
Qed.

(** ** Bytecode *)

Lemma _dictify_instructions_encoded (encode : pyobj -> result pyobj)
    (instructions : list (list pyobj)) (encoded : list pyobj) :
  Forall2 (instruction_encoded encode) instructions encoded ->
  _dictify_instructions encode instructions = Ok (PyList encoded).
Proof.
  intros H. unfold _dictify_instructions.
  replace (mapM _ instructions) with (@Ok (list pyobj) encoded); [reflexivity|].
  symmetry. apply mapM_Forall2.
  induction H as [|instruction enc rest rest' (op & args & args' & -> & Ha & ->) _ IH];
    constructor; [|exact IH].
  apply mapM_Forall2 in Ha. rewrite Ha. reflexivity.
Qed.

Lemma optional_entry_present (key : string) (A : Type) (l : list A)
    (encoded : list pyobj) (rest : dict_items) :
  List.length l = List.length encoded ->
  (dict_get (optional_entry key encoded ++ rest)%list key <> None
   <-> l <> nil \/ dict_get rest key <> None).
Proof.
  intros Hlen. destruct encoded as [|e encoded]; simpl.
  - destruct l; [|discriminate]. tauto.
  - rewrite String.eqb_refl. destruct l; [discriminate|].
    split; intros _; [left|]; discriminate.
Qed.

(** C8: the payload of an encoded Bytecode has a "source" entry only when
    there are source instructions and a "step" entry only when there are step
    instructions, each the list of the encoded instructions; an encoded
    instruction keeps its op-name as it is and holds the encoding of every
    argument.  With no instruction at all the payload is the empty dict.
    A Traversal is encoded as its Bytecode, and with the default registry
    [toDict] hands a Bytecode to this unit. *)
Theorem Bytecode_dictify_shape (self : GraphSONIO)
    (source step : list (list pyobj)) (source' step' : list pyobj) :
  Forall2 (instruction_encoded (toDict self)) source source' ->
  Forall2 (instruction_encoded (toDict self)) step step' ->
  let payload :=
    (optional_entry "source" source' ++ optional_entry "step" step')%list in
  dictify (toDict self) BytecodeSerializer (Bytecode source step)
  = Ok (envelope "g:Bytecode" (PyDict payload))
  /\ (dict_get payload "source" <> None <-> source <> [])
  /\ (dict_get payload "step" <> None <-> step <> [])
  /\ dictify (toDict self) BytecodeSerializer (Bytecode [] [])
     = Ok (envelope "g:Bytecode" (PyDict []))
  /\ dictify (toDict self) TraversalSerializer
       (Traversal (Bytecode source step))
     = dictify (toDict self) BytecodeSerializer (Bytecode source step)
  /\ toDict default_io (Bytecode source step)
     = dictify (toDict default_io) BytecodeSerializer (Bytecode source step).
Proof.
  intros Hs Ht payload. subst payload.
  pose proof (Forall2_length Hs) as Ls.
  pose proof (Forall2_length Ht) as Lt.
  split; [|split; [|split; [|split; [|split]]]].
  - cbn [dictify _BytecodeSerializer_dictify dictify_bytecode].
    destruct Hs as [|i e source source' Hi Hs].
    + destruct Ht as [|j f step step' Hj Ht]; [reflexivity|].
      rewrite (_dictify_instructions_encoded _ _ _ (Forall2_cons _ _ Hj Ht)).
      reflexivity.
    + rewrite (_dictify_instructions_encoded _ _ _ (Forall2_cons _ _ Hi Hs)).
      destruct Ht as [|j f step step' Hj Ht]; [reflexivity|].
      cbn [bind].
      rewrite (_dictify_instructions_encoded _ _ _ (Forall2_cons _ _ Hj Ht)).
      reflexivity.
  - rewrite (optional_entry_present "source" _ source) by exact Ls.
    split; [intros [H|H]; [exact H|]|tauto].
    exfalso. apply H. destruct step'; reflexivity.
  - destruct source' as [|e source']; cbn [optional_entry app].
    + rewrite <- (app_nil_r (optional_entry "step" step')).
      rewrite (optional_entry_present "step" _ step) by exact Lt.
      simpl. tauto.
    + cbn [dict_get is_key]. replace ("source" =? "step")%string with false by reflexivity.
      rewrite <- (app_nil_r (optional_entry "step" step')).
      rewrite (optional_entry_present "step" _ step) by exact Lt.
      simpl. tauto.
  - reflexivity.
  - reflexivity.
  - rewrite toDict_eq, find_serializer_default_Bytecode. reflexivity.
Qed.

(** ** Graph elements *)

Lemma toObject_envelope (self : GraphSONIO) (tag : string)
    (deserializer : codec) (payload : pyobj) :
  assoc_get String.eqb (deserializers self) tag = Some deserializer ->
  toObject self (envelope tag payload)
  = try_except_KeyError
      (objectify (toObject self) deserializer payload)
      (dict_comprehension (toObject self)
         [(PyStr _TYPE_KEY, PyStr tag); (PyStr _VALUE_KEY, payload)]).
Proof.
  intros H. unfold envelope. rewrite toObject_dict_eq.
  cbn [getitem dict_get is_key].
  replace (_TYPE_KEY =? _TYPE_KEY)%string with true by reflexivity.
  replace (_TYPE_KEY =? _VALUE_KEY)%string with false by reflexivity.
  replace (_VALUE_KEY =? _VALUE_KEY)%string with true by reflexivity.
  cbn [bind lookup_deserializer]. rewrite H. reflexivity.
Qed.

Lemma VertexDeserializer_objectify_eq (toObject' : pyobj -> result pyobj)
    (d : pyobj) :
  VertexDeserializer_objectify toObject' d =
  (i <- getitem d "id" ;;
   id <- toObject' i ;;
   label <- dict_get_default d "label" (PyStr "") ;;
   Ok (Vertex id label)).
Proof. apply getitem_k_spec. Qed.

Lemma EdgeDeserializer_objectify_eq (toObject' : pyobj -> result pyobj)
    (d : pyobj) :
  EdgeDeserializer_objectify toObject' d =
  (i <- getitem d "id" ;;
   id <- toObject' i ;;
   o <- getitem d "outV" ;;
   outV <- toObject' o ;;
   label <- dict_get_default d "label" (PyStr "vertex") ;;
   n <- getitem d "inV" ;;
   inV <- toObject' n ;;
   Ok (Edge id (Vertex outV (PyStr "")) label (Vertex inV (PyStr "")))).
Proof.
  unfold EdgeDeserializer_objectify. rewrite getitem_k_spec.
  destruct (getitem d "id") as [i|]; [|reflexivity]. cbn [bind].
  destruct (toObject' i) as [id|]; [|reflexivity]. cbn [bind].
  rewrite getitem_k_spec.
  destruct (getitem d "outV") as [o|]; [|reflexivity]. cbn [bind].
  destruct (toObject' o) as [outV|]; [|reflexivity]. cbn [bind].
  destruct (dict_get_default d "label" (PyStr "vertex")); [|reflexivity].
  cbn [bind]. apply getitem_k_spec.
Qed.

Lemma VertexPropertyDeserializer_objectify_eq
    (toObject' : pyobj -> result pyobj) (d : pyobj) :
  VertexPropertyDeserializer_objectify toObject' d =
  (i <- getitem d "id" ;;
   id <- toObject' i ;;
   label <- getitem d "label" ;;
   v <- getitem d "value" ;;
   value <- toObject' v ;;
   Ok (VertexProperty id label value)).
Proof.
  unfold VertexPropertyDeserializer_objectify. rewrite getitem_k_spec.
  destruct (getitem d "id") as [i|]; [|reflexivity]. cbn [bind].
  destruct (toObject' i) as [id|]; [|reflexivity]. cbn [bind].
  rewrite getitem_k_spec.
  destruct (getitem d "label") as [label|]; [|reflexivity]. cbn [bind].
  apply getitem_k_spec.
Qed.

Lemma PropertyDeserializer_objectify_eq (toObject' : pyobj -> result pyobj)
    (d : pyobj) :
  PropertyDeserializer_objectify toObject' d =
  (key <- getitem d "key" ;;
   v <- getitem d "value" ;;
   value <- toObject' v ;;
   Ok (Property key value)).
Proof.
  unfold PropertyDeserializer_objectify. rewrite getitem_k_spec.
  destruct (getitem d "key") as [key|]; [|reflexivity]. cbn [bind].
  apply getitem_k_spec.
Qed.

Lemma mapM_toObject_chars (self : GraphSONIO) (s : string) :
  mapM (toObject self) (chars s) = Ok (chars s).
Proof.
  induction s as [|c rest IH]; [reflexivity|].
  cbn [chars mapM toObject bind]. rewrite IH. reflexivity.
Qed.

Lemma mapM_map {A B C : Type} (f : B -> result C) (g : A -> B) (l : list A) :
  mapM f (map g l) = mapM (fun a => f (g a)) l.
Proof.
  induction l as [|a rest IH]; [reflexivity|].
  cbn [map mapM]. rewrite IH. reflexivity.
Qed.

Lemma objectify_each_eq (self : GraphSONIO) (os : pyobj) :
  objectify_each (toObject self) os =
  (it <- py_iter os ;; mapM (toObject self) it).
Proof.
  destruct os; try reflexivity.
  - cbn [objectify_each py_iter bind]. symmetry. apply mapM_toObject_chars.
  - cbn [objectify_each py_iter bind]. symmetry. apply mapM_map.
Qed.

Lemma PathDeserializer_objectify_eq (self : GraphSONIO) (d : pyobj) :
  PathDeserializer_objectify (toObject self) d =
  (ls <- getitem d "labels" ;;
   it <- py_iter ls ;;
   labels <- mapM py_set it ;;
   os <- getitem d "objects" ;;
   it' <- py_iter os ;;
   objects <- mapM (toObject self) it' ;;
   Ok (Path labels objects)).
Proof.
  unfold PathDeserializer_objectify. rewrite getitem_k_spec.
  destruct (getitem d "labels") as [ls|]; [|reflexivity]. cbn [bind].
  destruct (py_iter ls) as [it|]; [|reflexivity]. cbn [bind].
  destruct (mapM py_set it) as [labels|]; [|reflexivity]. cbn [bind].
  rewrite getitem_k_spec.
  destruct (getitem d "objects") as [os|]; [|reflexivity]. cbn [bind].
  rewrite objectify_each_eq.
  destruct (py_iter os) as [it'|]; reflexivity.
Qed.

(** C9: decoding a g:Vertex payload that has no "label" key yields a Vertex
    whose label is the empty string, decoding a g:Edge payload that has none
    yields an Edge whose label is the string "vertex"; a label that is there
    is taken as it is (it is not decoded).  Stated for the decoders and for
    [toObject] on the envelope, in a session that has the decoder under its
    tag. *)
Theorem Vertex_Edge_default_label (self : GraphSONIO) :
  (forall d i id',
     dict_get d "id" = Some i -> toObject self i = Ok id' ->
     let label := match dict_get d "label" with
                  | Some l => l
                  | None => PyStr ""
                  end in
     objectify (toObject self) VertexDeserializer (PyDict d) = Ok (Vertex id' label)
     /\ (assoc_get String.eqb (deserializers self) "g:Vertex"
         = Some VertexDeserializer ->
         toObject self (envelope "g:Vertex" (PyDict d)) = Ok (Vertex id' label)))
  /\ (forall d i o n id' outV' inV',
        dict_get d "id" = Some i -> toObject self i = Ok id' ->
        dict_get d "outV" = Some o -> toObject self o = Ok outV' ->
        dict_get d "inV" = Some n -> toObject self n = Ok inV' ->
        let label := match dict_get d "label" with
                     | Some l => l
                     | None => PyStr "vertex"
                     end in
        let edge := Edge id' (Vertex outV' (PyStr "")) label
                      (Vertex inV' (PyStr "")) in
        objectify (toObject self) EdgeDeserializer (PyDict d) = Ok edge
        /\ (assoc_get String.eqb (deserializers self) "g:Edge"
            = Some EdgeDeserializer ->
            toObject self (envelope "g:Edge" (PyDict d)) = Ok edge)).
Proof.
  split.
  - intros d i id' Hi Hid label.
    assert (E : objectify (toObject self) VertexDeserializer (PyDict d)
                = Ok (Vertex id' label)).
    { cbn [objectify]. rewrite VertexDeserializer_objectify_eq.
      rewrite (getitem_present _ _ _ Hi). cbn [bind]. rewrite Hid. reflexivity. }
    split; [exact E|]. intros Hreg.
    rewrite (toObject_envelope _ _ VertexDeserializer) by exact Hreg.
    rewrite E. reflexivity.
  - intros d i o n id' outV' inV' Hi Hid Ho Hout Hn Hin label edge.
    assert (E : objectify (toObject self) EdgeDeserializer (PyDict d) = Ok edge).
    { cbn [objectify]. rewrite EdgeDeserializer_objectify_eq.
      rewrite (getitem_present _ _ _ Hi). cbn [bind]. rewrite Hid. cbn [bind].
      rewrite (getitem_present _ _ _ Ho). cbn [bind]. rewrite Hout. cbn [bind].
      cbn [dict_get_default].
      rewrite (getitem_present _ _ _ Hn). cbn [bind]. rewrite Hin. reflexivity. }
    split; [exact E|]. intros Hreg.
    rewrite (toObject_envelope _ _ EdgeDeserializer) by exact Hreg.
    rewrite E. reflexivity.
Qed.

(** ** Traversers *)

Lemma TraverserIO_objectify_eq (toObject' : pyobj -> result pyobj) (d : pyobj) :
  TraverserIO_objectify toObject' d =
  (v <- getitem d "value" ;;
   object <- toObject' v ;;
   b <- getitem d "bulk" ;;
   bulk <- toObject' b ;;
   Ok (Traverser object bulk)).
Proof.
  unfold TraverserIO_objectify. rewrite getitem_k_spec.
  destruct (getitem d "value") as [v|]; [|reflexivity]. cbn [bind].
  destruct (toObject' v) as [object|]; [|reflexivity]. cbn [bind].
  apply getitem_k_spec.
Qed.

Lemma TraverserIO_roundtrip (v b object bulk : pyobj) :
  toObject default_io v = Ok object ->
  toObject default_io b = Ok bulk ->
  toObject default_io
    (envelope "g:Traverser" (PyDict [(PyStr "value", v); (PyStr "bulk", b)]))
  = Ok (Traverser object bulk).
Proof.
  intros Hv Hb.
  rewrite (toObject_envelope _ _ TraverserIO) by reflexivity.
  cbn [objectify]. rewrite TraverserIO_objectify_eq.
  replace (getitem (PyDict [(PyStr "value", v); (PyStr "bulk", b)]) "value")
    with (Ok v) by reflexivity.
  cbn [bind]. rewrite Hv. cbn [bind].
  replace (getitem (PyDict [(PyStr "value", v); (PyStr "bulk", b)]) "bulk")
    with (Ok b) by reflexivity.
  cbn [bind]. rewrite Hb. reflexivity.
Qed.

Lemma codec_handled_roundtrip (obj : pyobj) :
  codec_handled obj = true ->
  exists w, toDict default_io obj = Ok w /\ toObject default_io w = Ok obj.
Proof.
  induction obj using pyobj_ind; intros Hh; try discriminate Hh.
  - (* bool *)
    exists (PyBool b). split; [|reflexivity].
    rewrite toDict_eq, find_serializer_default_bool. reflexivity.
  - (* int *)
    exists (envelope "g:Int32" (PyInt n)). split.
    + rewrite toDict_eq, find_serializer_default_int. reflexivity.
    + rewrite (toObject_envelope _ _ Int32IO) by reflexivity. reflexivity.
  - (* long *)
    exists (envelope "g:Int64" (PyLong n)). split.
    + rewrite toDict_eq, find_serializer_default_long. reflexivity.
    + rewrite (toObject_envelope _ _ Int64IO) by reflexivity. reflexivity.
  - (* float *)
    exists (envelope "g:Double" (PyFloat x)). split.
    + rewrite toDict_eq, find_serializer_default_float. reflexivity.
    + rewrite (toObject_envelope _ _ DoubleIO) by reflexivity. reflexivity.
  - (* Traverser *)
    cbn [codec_handled] in Hh. apply andb_prop in Hh as [H1 H2].
    destruct (IHobj1 H1) as (v & Ev & Dv).
    destruct (IHobj2 H2) as (b & Eb & Db).
    exists (envelope "g:Traverser"
              (PyDict [(PyStr "value", v); (PyStr "bulk", b)])).
    split.
    + rewrite toDict_eq, find_serializer_default_Traverser.
      cbn [dictify TraverserIO_dictify]. rewrite Ev. cbn [bind]. rewrite Eb.
      reflexivity.
    + apply TraverserIO_roundtrip; assumption.
  - (* Vertex *) eexists. split; reflexivity.
  - (* Edge *) eexists. split; reflexivity.
  - (* VertexProperty *) eexists. split; reflexivity.
  - (* Property *) eexists. split; reflexivity.
  - (* Path *) eexists. split; reflexivity.
Qed.

Lemma typedValue_is_dict (type_name : string) (value : pyobj) (prefix : string) :
  exists items, typedValue type_name value prefix = PyDict items.
Proof. unfold typedValue. destruct (negb (is_None value)); eauto. Qed.

(** What an encoder-only value is encoded to is a dict. *)
Lemma encoder_only_toDict (obj w : pyobj) :
  encoder_only obj = true ->
  toDict default_io obj = Ok w ->
  exists items, w = PyDict items.
Proof.
  intros He H. rewrite toDict_eq in H.
  destruct obj; try discriminate He;
    match type of H with
    | context [find_serializer ?io ?o] =>
        let r := eval cbv in (find_serializer io o) in
        change (find_serializer io o) with r in H
    end;
    cbn [dictify] in H.
  - (* a function *)
    unfold LambdaSerializer_dictify in H.
    apply bind_Ok in H as (script & _ & H).
    apply bind_Ok in H as (language & _ & H).
    destruct (py_eqb language (PyStr "gremlin-jython")
              || py_eqb language (PyStr "gremlin-python")).
    + destruct script; try discriminate H.
      apply bind_Ok in H as (arguments & _ & H).
      injection H as <-. apply typedValue_is_dict.
    + injection H as <-. apply typedValue_is_dict.
  - (* an enum member *)
    injection H as <-. apply typedValue_is_dict.
  - (* Bytecode *)
    cbn [_BytecodeSerializer_dictify dictify_bytecode] in H.
    apply bind_Ok in H as (out & _ & H).
    apply bind_Ok in H as (out' & _ & H).
    injection H as <-. apply typedValue_is_dict.
  - (* Traversal *)
    cbn [_BytecodeSerializer_dictify] in H. unfold dictify_bytecode in H.
    destruct obj; try discriminate H.
    apply bind_Ok in H as (out & _ & H).
    apply bind_Ok in H as (out' & _ & H).
    injection H as <-. apply typedValue_is_dict.
  - (* TraversalStrategy *)
    cbn [TraversalStrategySerializer_dictify] in H.
    apply bind_Ok in H as (c & _ & H).
    injection H as <-. apply typedValue_is_dict.
  - (* P *)
    cbn [PSerializer_dictify] in H.
    apply bind_Ok in H as (v & _ & H).
    injection H as <-. apply typedValue_is_dict.
  - (* Binding *)
    cbn [BindingSerializer_dictify] in H.
    apply bind_Ok in H as (v & _ & H).
    injection H as <-. apply typedValue_is_dict.
Qed.

(** No decoder builds an encoder-only value. *)
Lemma objectify_not_encoder_only (toObject' : pyobj -> result pyobj)
    (deserializer : codec) (d r : pyobj) :
  objectify toObject' deserializer d = Ok r -> encoder_only r = false.
Proof.
  intros H.
  destruct deserializer; cbn [objectify] in H; try discriminate H;
    unfold TraverserIO_objectify, VertexDeserializer_objectify,
      EdgeDeserializer_objectify, VertexPropertyDeserializer_objectify,
      PropertyDeserializer_objectify, PathDeserializer_objectify,
      _NumberIO_objectify in H; cbn [python_type] in H;
    repeat (cbv beta in H;
            first [ rewrite getitem_k_spec in H
                  | apply bind_Ok in H; destruct H as (? & ? & H) ]);
    injection H as <-; reflexivity.
Qed.

(** Decoding a dict gives what a decoder builds, or a dict. *)
Lemma toObject_dict_not_encoder_only (self : GraphSONIO) (items : dict_items)
    (r : pyobj) :
  toObject self (PyDict items) = Ok r -> encoder_only r = false.
Proof.
  rewrite toObject_dict_eq.
  destruct (tag <- getitem (PyDict items) _TYPE_KEY ;;
            deserializer <- lookup_deserializer self tag ;;
            value <- getitem (PyDict items) _VALUE_KEY ;;
            objectify (toObject self) deserializer value) as [r0|e] eqn:B.
  - cbn [try_except_KeyError]. intros H. injection H as <-.
    apply bind_Ok in B as (tag & _ & B).
    apply bind_Ok in B as (deserializer & _ & B).
    apply bind_Ok in B as (value & _ & B).
    exact (objectify_not_encoder_only _ _ _ _ B).
  - destruct e; cbn [try_except_KeyError]; try discriminate.
    unfold dict_comprehension. intros H.
    apply bind_Ok in H as (out & _ & H). injection H as <-. reflexivity.
Qed.

Lemma encoder_only_does_not_come_back (obj w : pyobj) :
  encoder_only obj = true ->
  toDict default_io obj = Ok w ->
  toObject default_io w <> Ok obj.
Proof.
  intros He Hw Hr.
  destruct (encoder_only_toDict obj w He Hw) as (items & ->).
  apply toObject_dict_not_encoder_only in Hr. congruence.
Qed.

(** C1, as amended: for a Traverser whose object and bulk are values the codec
    units handle in both directions (numbers and booleans, graph elements,
    traversers of such values), decoding what encoding returns, with the
    default registry, gives back a Traverser with the same object and the
    same bulk; the encoding is the g:Traverser envelope of the encoded object
    and bulk.  For a Traverser whose object or bulk is a value that only an
    encoding unit handles (a Bytecode, a Traversal, a strategy, an enum
    member, a P, a Binding, a lambda), what encoding returns never decodes to
    that Traverser: the value is encoded to a dict whose tag has no decoder
    that would build it again. *)
Theorem Traverser_roundtrip (object bulk : pyobj) :
  (codec_handled object = true ->
   codec_handled bulk = true ->
   (exists v b,
       toDict default_io object = Ok v /\ toDict default_io bulk = Ok b
       /\ toDict default_io (Traverser object bulk)
          = Ok (envelope "g:Traverser"
                  (PyDict [(PyStr "value", v); (PyStr "bulk", b)])))
   /\ (d <- toDict default_io (Traverser object bulk) ;; toObject default_io d)
      = Ok (Traverser object bulk))
  /\ (encoder_only object = true \/ encoder_only bulk = true ->
      (d <- toDict default_io (Traverser object bulk) ;; toObject default_io d)
      <> Ok (Traverser object bulk)).
Proof.
  split.
  - intros Ho Hb.
    destruct (codec_handled_roundtrip object Ho) as (v & Ev & Dv).
    destruct (codec_handled_roundtrip bulk Hb) as (b & Eb & Db).
    assert (E : toDict default_io (Traverser object bulk)
                = Ok (envelope "g:Traverser"
                        (PyDict [(PyStr "value", v); (PyStr "bulk", b)]))).
    { rewrite toDict_eq, find_serializer_default_Traverser.
      cbn [dictify TraverserIO_dictify]. rewrite Ev. cbn [bind]. rewrite Eb.
      reflexivity. }
    split.
    + exists v, b. auto.
    + rewrite E. cbn [bind]. apply TraverserIO_roundtrip; assumption.
  - intros He H.
    apply bind_Ok in H as (d & E & D).
    rewrite toDict_eq, find_serializer_default_Traverser in E.
    cbn [dictify TraverserIO_dictify] in E.
    apply bind_Ok in E as (v & Ev & E).
    apply bind_Ok in E as (b & Eb & E).
    injection E as <-.
    change (typedValue "Traverser"
              (PyDict [(PyStr "value", v); (PyStr "bulk", b)]) default_prefix)
      with (envelope "g:Traverser"
              (PyDict [(PyStr "value", v); (PyStr "bulk", b)])) in D.
    rewrite (toObject_envelope _ _ TraverserIO) in D by reflexivity.
    cbn [objectify] in D. rewrite TraverserIO_objectify_eq in D.
    replace (getitem (PyDict [(PyStr "value", v); (PyStr "bulk", b)]) "value")
      with (Ok v) in D by reflexivity.
    replace (getitem (PyDict [(PyStr "value", v); (PyStr "bulk", b)]) "bulk")
      with (Ok b) in D by reflexivity.
    assert (Hd : forall items, dict_comprehension (toObject default_io) items
                               <> Ok (Traverser object bulk)).
    { unfold dict_comprehension. intros items Hc.
      apply bind_Ok in Hc as (out & _ & Hc). discriminate Hc. }
    cbn [bind] in D.
    destruct (toObject default_io v) as [object'|e] eqn:Dv;
      [|destruct e; try discriminate D; exact (Hd _ D)].
    cbn [bind] in D.
    destruct (toObject default_io b) as [bulk'|e] eqn:Db;
      [|destruct e; try discriminate D; exact (Hd _ D)].
    cbn [bind try_except_KeyError] in D. injection D as -> ->.
    destruct He as [He|He].
    + exact (encoder_only_does_not_come_back _ _ He Ev Dv).
    + exact (encoder_only_does_not_come_back _ _ He Eb Db).
Qed.

(** ** Decoding mappings *)

Lemma mapM_never_KeyError {A B : Type} (f : A -> result B) (l : list A) :
  Forall (fun a => f a <> Raise KeyError) l -> mapM f l <> Raise KeyError.
Proof.
  induction 1 as [|a rest Ha _ IH]; simpl; [discriminate|].
  destruct (f a) as [b|e]; simpl; [|congruence].
  destruct (mapM f rest); simpl; [discriminate | congruence].
Qed.

Lemma dict_comprehension_never_KeyError (f : pyobj -> result pyobj)
    (items : dict_items) :
  Forall (fun kv => f (fst kv) <> Raise KeyError
                    /\ f (snd kv) <> Raise KeyError) items ->
  dict_comprehension f items <> Raise KeyError.
Proof.
  intros H. unfold dict_comprehension.
  assert (G : forall acc, dict_comprehension_from f acc items <> Raise KeyError).
  { induction H as [|[k v] rest [Hk Hv] _ IH]; intros acc; simpl in *;
      [discriminate|].
    destruct (f k) as [k'|e]; simpl; [|congruence].
    destruct (f v) as [v'|e]; simpl; [|congruence].
    unfold dict_setitem. destruct (hashable k'); simpl;
      [apply IH | discriminate]. }
  specialize (G []).
  destruct (dict_comprehension_from f [] items); simpl;
    [discriminate | congruence].
Qed.

(** A KeyError never leaves [toObject]: the one place that can raise it is
    inside the [try], and the handler catches it. *)
Lemma toObject_never_KeyError (self : GraphSONIO) (obj : pyobj) :
  toObject self obj <> Raise KeyError.
Proof.
  induction obj as [ | | | | | |l IHl| | |items IHitems| | | | | | | | | | | | | | | ]
    using pyobj_ind; try (simpl; discriminate).
  - cbn [toObject].
    assert (H : mapM (toObject self) l <> Raise KeyError).
    { apply mapM_never_KeyError.
      induction IHl; constructor; assumption. }
    destruct (mapM (toObject self) l); simpl; [discriminate | congruence].
  - rewrite toObject_dict_eq. apply try_except_not_KeyError.
    apply dict_comprehension_never_KeyError.
    induction IHitems as [|kv Hkv rest _ IH]; constructor; [|exact IH].
    destruct Hkv as [k Hk v Hv]. split; assumption.
Qed.

Lemma dict_comprehension_from_pairs (f : pyobj -> result pyobj)
    (items pairs acc : dict_items) :
  Forall2 (fun kv kv' => f (fst kv) = Ok (fst kv')
                         /\ f (snd kv) = Ok (snd kv')
                         /\ hashable (fst kv') = true) items pairs ->
  dict_comprehension_from f acc items
  = Ok (fold_left (fun acc kv => dict_set acc (fst kv) (snd kv)) pairs acc).
Proof.
  intros H. revert acc.
  induction H as [|[k v] [k' v'] items pairs (Hk & Hv & Hh) _ IH]; intros acc;
    simpl in *; [reflexivity|].
  rewrite Hk, Hv. cbn [bind]. unfold dict_setitem. rewrite Hh. cbn [bind].
  apply IH.
Qed.

Lemma toObject_unregistered (self : GraphSONIO) (items : dict_items)
    (tag : string) :
  dict_get items _TYPE_KEY = Some (PyStr tag) ->
  assoc_get String.eqb (deserializers self) tag = None ->
  toObject self (PyDict items) = dict_comprehension (toObject self) items.
Proof.
  intros Htag Hreg. rewrite toObject_dict_eq.
  rewrite (getitem_present _ _ _ Htag). cbn [bind lookup_deserializer].
  rewrite Hreg. reflexivity.
Qed.

Lemma dict_comprehension_from_Ok (f : pyobj -> result pyobj)
    (items acc out : dict_items) :
  dict_comprehension_from f acc items = Ok out ->
  exists pairs,
    Forall2 (fun kv kv' => f (fst kv) = Ok (fst kv')
                           /\ f (snd kv) = Ok (snd kv')
                           /\ hashable (fst kv') = true) items pairs
    /\ out = fold_left (fun acc kv => dict_set acc (fst kv) (snd kv)) pairs acc.
Proof.
  revert acc. induction items as [|[k v] rest IH]; intros acc H; simpl in H.
  - injection H as <-. exists []. split; [constructor | reflexivity].
  - apply bind_Ok in H as (k' & Hk & H).
    apply bind_Ok in H as (v' & Hv & H).
    apply bind_Ok in H as (acc' & Hs & H).
    unfold dict_setitem in Hs. destruct (hashable k') eqn:Hh; [|discriminate Hs].
    injection Hs as <-.
    destruct (IH _ H) as (pairs & Hpairs & ->).
    exists ((k', v') :: pairs). split; [|reflexivity].
    constructor; [|exact Hpairs]. cbn [fst snd]. auto.
Qed.

Lemma dict_comprehension_from_Raise (f : pyobj -> result pyobj)
    (items acc : dict_items) (e : exn) :
  dict_comprehension_from f acc items = Raise e ->
  exists k v,
    In (k, v) items
    /\ (f k = Raise e
        \/ (exists k', f k = Ok k'
                       /\ (f v = Raise e
                           \/ (exists v', f v = Ok v') /\ hashable k' = false
                              /\ e = TypeError))).
Proof.
  revert acc. induction items as [|[k v] rest IH]; intros acc H; simpl in H;
    [discriminate H|].
  destruct (f k) as [k'|ek] eqn:Hk; cbn [bind] in H.
  - destruct (f v) as [v'|ev] eqn:Hv; cbn [bind] in H.
    + unfold dict_setitem in H. destruct (hashable k') eqn:Hh; cbn [bind] in H.
      * destruct (IH _ H) as (k0 & v0 & Hin & Hfail).
        exists k0, v0. split; [right; exact Hin | exact Hfail].
      * injection H as <-. exists k, v. split; [left; reflexivity|].
        right. exists k'. split; [exact Hk|]. right. eauto.
    + injection H as <-. exists k, v. split; [left; reflexivity|].
      right. exists k'. split; [exact Hk|]. left. exact Hv.
  - injection H as <-. exists k, v. split; [left; reflexivity|].
    left. exact Hk.
Qed.

(** C4, as amended: a mapping whose "@type" entry is a string that the decode
    registry does not hold is decoded as an ordinary map: the failed lookup
    raises nothing to the caller, and [toObject] is the generic decoding of
    the keys and values, the "@type" and "@value" entries among them.  It
    returns the dict of the decoded entries exactly when every key and value
    decodes (to a hashable key); it raises exactly when the decoding of one of
    the entries raises, with the exception of that entry, which is never
    KeyError. *)
Theorem unregistered_tag_decodes_as_map (self : GraphSONIO)
    (items : dict_items) (tag : string) :
  dict_get items _TYPE_KEY = Some (PyStr tag) ->
  assoc_get String.eqb (deserializers self) tag = None ->
  toObject self (PyDict items) = dict_comprehension (toObject self) items
  /\ toObject self (PyDict items) <> Raise KeyError
  /\ (forall pairs,
        Forall2 (fun kv kv' => toObject self (fst kv) = Ok (fst kv')
                               /\ toObject self (snd kv) = Ok (snd kv')
                               /\ hashable (fst kv') = true) items pairs ->
        toObject self (PyDict items) = Ok (PyDict (dict_of_pairs pairs)))
  /\ (forall r,
        toObject self (PyDict items) = Ok r ->
        exists pairs,
          Forall2 (fun kv kv' => toObject self (fst kv) = Ok (fst kv')
                                 /\ toObject self (snd kv) = Ok (snd kv')
                                 /\ hashable (fst kv') = true) items pairs
          /\ r = PyDict (dict_of_pairs pairs))
  /\ (forall e,
        toObject self (PyDict items) = Raise e ->
        exists k v,
          In (k, v) items
          /\ (toObject self k = Raise e
              \/ (exists k', toObject self k = Ok k'
                             /\ (toObject self v = Raise e
                                 \/ (exists v', toObject self v = Ok v')
                                    /\ hashable k' = false
                                    /\ e = TypeError)))).
Proof.
  intros Htag Hreg.
  pose proof (toObject_unregistered self items tag Htag Hreg) as E.
  split; [exact E|]. split; [apply toObject_never_KeyError|].
  split; [|split].
  - intros pairs Hpairs. rewrite E. unfold dict_comprehension.
    rewrite (dict_comprehension_from_pairs _ _ _ _ Hpairs). reflexivity.
  - intros r Hr. rewrite E in Hr. unfold dict_comprehension in Hr.
    apply bind_Ok in Hr as (out & Hout & Hr). injection Hr as <-.
    destruct (dict_comprehension_from_Ok _ _ _ _ Hout) as (pairs & Hpairs & ->).
    exists pairs. split; [exact Hpairs | reflexivity].
  - intros e He. rewrite E in He. unfold dict_comprehension in He.
    destruct (dict_comprehension_from (toObject self) [] items) as [out|e0]
      eqn:Hout; [discriminate He|].
    injection He as ->.
    exact (dict_comprehension_from_Raise _ _ _ _ Hout).
Qed.

Lemma objectify_None (toObject' : pyobj -> result pyobj) (deserializer : codec) :
  objectify toObject' deserializer PyNone = Raise TypeError.
Proof. destruct deserializer; reflexivity. Qed.

(** C3, as amended: a mapping that has the "@type" key with a registered tag
    and no "@value" key is not handed to the decoder at all: looking the
    value up raises KeyError inside the [try], and the mapping is decoded as
    an ordinary map.  (Called with None, every decoder would raise
    TypeError.) *)
Theorem missing_value_key_decodes_as_map (self : GraphSONIO)
    (items : dict_items) (tag : string) (deserializer : codec) :
  dict_get items _TYPE_KEY = Some (PyStr tag) ->
  assoc_get String.eqb (deserializers self) tag = Some deserializer ->
  dict_get items _VALUE_KEY = None ->
  toObject self (PyDict items) = dict_comprehension (toObject self) items
  /\ objectify (toObject self) deserializer PyNone = Raise TypeError.
Proof.
  intros Htag Hreg Hvalue. split; [|apply objectify_None].
  rewrite toObject_dict_eq.
  rewrite (getitem_present _ _ _ Htag). cbn [bind lookup_deserializer].
  rewrite Hreg. cbn [bind].
  rewrite (getitem_missing _ _ Hvalue). reflexivity.
Qed.

Lemma objectify_missing_field (toObject' : pyobj -> result pyobj)
    (deserializer : codec) (d : dict_items) (field : string) (v : pyobj) :
  In field (required_fields deserializer) ->
  dict_get d field = None ->
  objectify toObject' deserializer (PyDict d) <> Ok v.
Proof.
  intros Hin Hnone Hv.
  destruct deserializer; cbn [required_fields In] in Hin; try contradiction;
    cbn [objectify] in Hv;
    unfold TraverserIO_objectify, VertexDeserializer_objectify,
      EdgeDeserializer_objectify, VertexPropertyDeserializer_objectify,
      PropertyDeserializer_objectify, PathDeserializer_objectify in Hv;
    repeat (cbv beta in Hv;
            first [ rewrite getitem_k_spec in Hv
                  | apply bind_Ok in Hv; destruct Hv as (? & ? & Hv) ]);
    repeat (destruct Hin as [<-|Hin]; [|try contradiction]);
    match goal with
    | G : getitem (PyDict d) _ = Ok _ |- _ =>
        cbn [getitem] in G; rewrite Hnone in G; discriminate G
    end.
Qed.

(** A decoder whose payload lacks the field [field] goes as far as the fields
    it reads before, and raises KeyError at [field] when they went through. *)
Lemma objectify_reads_up_to_missing_field (self : GraphSONIO)
    (deserializer : codec) (d : dict_items) (before after : list string)
    (field : string) :
  required_fields deserializer = (before ++ field :: after)%list ->
  dict_get d field = None ->
  objectify (toObject self) deserializer (PyDict d)
  = (done <- read_fields (toObject self) deserializer (PyDict d) before ;;
     Raise KeyError).
Proof.
  intros Hsplit Hnone.
  destruct deserializer; cbn [required_fields] in Hsplit;
    try (destruct before; discriminate Hsplit);
    repeat match goal with
           | H : [] = (?b ++ _ :: _)%list |- _ => destruct b; discriminate H
           | H : _ :: _ = (?b ++ _ :: _)%list |- _ =>
               destruct b as [|? ?]; cbn [app] in H;
               [ injection H as <- <- | injection H as <- H ]
           end;
    cbn [objectify read_fields decode_field];
    rewrite ?TraverserIO_objectify_eq, ?VertexDeserializer_objectify_eq,
      ?EdgeDeserializer_objectify_eq, ?VertexPropertyDeserializer_objectify_eq,
      ?PropertyDeserializer_objectify_eq, ?PathDeserializer_objectify_eq;
    rewrite (getitem_missing _ _ Hnone);
    repeat match goal with
           | |- context [String.eqb ?a ?b] =>
               let r := eval vm_compute in (String.eqb a b) in
               change (String.eqb a b) with r
           end;
    repeat (cbn [bind dict_get_default];
            first
              [ reflexivity
              | match goal with
                | |- context [getitem (PyDict d) ?f] =>
                    destruct (getitem (PyDict d) f)
                | |- context [toObject self ?v] => destruct (toObject self v)
                | |- context [py_iter ?v] => destruct (py_iter v)
                | |- context [mapM py_set ?l] => destruct (mapM py_set l)
                end ]).
Qed.

(** C2, as amended: for an envelope whose tag is registered and whose payload
    mapping lacks a field the decoder requires, the decoder returns no value.
    It reads the fields that come before the missing one and raises KeyError
    at the missing one, unless one of those raised first.  No KeyError reaches
    the caller of [toObject]: the decoder runs inside the [try], whose
    [except KeyError] catches it, and [toObject] then decodes the envelope as
    an ordinary map; the call returns what that generic decoding returns, the
    dict of the decoded entries when every entry decodes, and raises what it
    raises, the exception of an entry that fails to decode.  An exception of
    another class that the decoder raises, while it decodes a field it reads
    before the missing one, propagates. *)
Theorem missing_field_KeyError_is_caught (self : GraphSONIO)
    (items : dict_items) (tag : string) (deserializer : codec)
    (d : dict_items) (field : string) :
  dict_get items _TYPE_KEY = Some (PyStr tag) ->
  assoc_get String.eqb (deserializers self) tag = Some deserializer ->
  dict_get items _VALUE_KEY = Some (PyDict d) ->
  In field (required_fields deserializer) ->
  dict_get d field = None ->
  let decoded := objectify (toObject self) deserializer (PyDict d) in
  let fallback := dict_comprehension (toObject self) items in
  toObject self (PyDict items) <> Raise KeyError
  /\ (forall v, decoded <> Ok v)
  /\ toObject self (PyDict items) = try_except_KeyError decoded fallback
  /\ (decoded = Raise KeyError -> toObject self (PyDict items) = fallback)
  /\ (forall e, decoded = Raise e -> e <> KeyError ->
      toObject self (PyDict items) = Raise e)
  /\ (forall before after,
        required_fields deserializer = (before ++ field :: after)%list ->
        let earlier :=
          read_fields (toObject self) deserializer (PyDict d) before in
        decoded = (done <- earlier ;; Raise KeyError)
        /\ (earlier = Ok tt \/ earlier = Raise KeyError ->
            decoded = Raise KeyError
            /\ toObject self (PyDict items) = fallback)
        /\ (forall e, earlier = Raise e -> e <> KeyError ->
            decoded = Raise e /\ toObject self (PyDict items) = Raise e))
  /\ fallback <> Raise KeyError
  /\ (forall pairs,
        Forall2 (fun kv kv' => toObject self (fst kv) = Ok (fst kv')
                               /\ toObject self (snd kv) = Ok (snd kv')
                               /\ hashable (fst kv') = true) items pairs ->
        fallback = Ok (PyDict (dict_of_pairs pairs)))
  /\ (forall e,
        fallback = Raise e ->
        exists k v,
          In (k, v) items
          /\ (toObject self k = Raise e
              \/ (exists k', toObject self k = Ok k'
                             /\ (toObject self v = Raise e
                                 \/ (exists v', toObject self v = Ok v')
                                    /\ hashable k' = false
                                    /\ e = TypeError)))).
Proof.
  intros Htag Hreg Hvalue Hin Hnone decoded fallback.
  assert (E : toObject self (PyDict items)
              = try_except_KeyError decoded fallback).
  { rewrite toObject_dict_eq.
    rewrite (getitem_present _ _ _ Htag). cbn [bind lookup_deserializer].
    rewrite Hreg. cbn [bind].
    rewrite (getitem_present _ _ _ Hvalue). reflexivity. }
  assert (Caught : decoded = Raise KeyError ->
                   toObject self (PyDict items) = fallback)
    by (intros K; rewrite E, K; reflexivity).
  assert (Passed : forall e, decoded = Raise e -> e <> KeyError ->
                             toObject self (PyDict items) = Raise e).
  { intros e K Hne. rewrite E, K. destruct e; try reflexivity. congruence. }
  split; [apply toObject_never_KeyError|].
  split; [intros v; apply objectify_missing_field with (field := field);
          assumption|].
  split; [exact E|]. split; [exact Caught|]. split; [exact Passed|].
  split; [|split; [|split]].
  - intros before after Hsplit earlier.
    assert (R : decoded = (done <- earlier ;; Raise KeyError))
      by (apply objectify_reads_up_to_missing_field
            with (after := after) (field := field); assumption).
    split; [exact R|]. split.
    + intros Hearlier.
      assert (K : decoded = Raise KeyError)
        by (rewrite R; destruct Hearlier as [-> | ->]; reflexivity).
      split; [exact K | exact (Caught K)].
    + intros e Hearlier Hne.
      assert (K : decoded = Raise e) by (rewrite R, Hearlier; reflexivity).
      split; [exact K | exact (Passed e K Hne)].
  - apply dict_comprehension_never_KeyError.
    apply Forall_forall. intros kv _. split; apply toObject_never_KeyError.
  - intros pairs Hpairs. unfold fallback, dict_comprehension.
    rewrite (dict_comprehension_from_pairs _ _ _ _ Hpairs). reflexivity.
  - intros e He. unfold fallback, dict_comprehension in He.
    destruct (dict_comprehension_from (toObject self) [] items) as [out|e0]
      eqn:Hout; [discriminate He|].
    injection He as ->.
    exact (dict_comprehension_from_Raise _ _ _ _ Hout).
Qed.

(** ** Further properties of the session and of the units *)

(** X1: on no argument does [toObject] raise KeyError: every lookup that can
    raise it is made inside the [try], and the handler decodes the dict as an
    ordinary map instead. *)
Theorem KeyError_never_leaves_toObject (self : GraphSONIO) (obj : pyobj) :
  toObject self obj <> Raise KeyError
  /\ forall items,
       obj = PyDict items ->
       dict_comprehension (toObject self) items <> Raise KeyError.
Proof.
  split; [apply toObject_never_KeyError|].
  intros items ->. apply dict_comprehension_never_KeyError.
  apply Forall_forall. intros kv _.
  split; apply toObject_never_KeyError.
Qed.

(** X2: an enum member is encoded with its type name and its own name both
    passed through [unmangleKeyword], which maps the eleven names of
    [symbolMap] to the keyword without the underscore and leaves every other
    name as it is; a member named [and_] gets the value "and". *)
Theorem Enum_dictify_unmangles (self : GraphSONIO) (type_name name : string) :
  dictify (toDict self) EnumSerializer (EnumMember type_name name)
  = Ok (envelope ("g:" ++ unmangleKeyword type_name)
          (PyStr (unmangleKeyword name)))
  /\ map (fun kv => unmangleKeyword (fst kv)) symbolMap = map snd symbolMap
  /\ (forall symbol, assoc_get String.eqb symbolMap symbol = None ->
                     unmangleKeyword symbol = symbol)
  /\ toDict default_io (EnumMember "and_" "and_")
     = Ok (envelope "g:and" (PyStr "and")).
Proof.
  split; [reflexivity|]. split; [reflexivity|]. split; [|reflexivity].
  intros symbol H. unfold unmangleKeyword. rewrite H. reflexivity.
Qed.

(** X3: with the default registry, a value of a type that has no encoder and
    is no list, set or dict is returned by [toDict] as it is: None, a string,
    a tuple, a graph element, an object of an unknown class. *)
Theorem toDict_passes_unknown_types_through (obj : pyobj) :
  In (type_of obj)
     [Cls.NoneType; Cls.py_str; Cls.py_tuple; Cls.Vertex; Cls.Edge;
      Cls.VertexProperty; Cls.Property; Cls.Path; Cls.Other] ->
  find_serializer default_io obj = None
  /\ toDict default_io obj = Ok obj.
Proof.
  intros H.
  assert (F : find_serializer default_io obj = None).
  { destruct obj; try reflexivity; cbn [type_of In] in H;
      repeat (destruct H as [H|H]; [discriminate H|]); contradiction. }
  split; [exact F|]. rewrite toDict_eq, F.
  destruct obj; try reflexivity; cbn [type_of In] in H;
    repeat (destruct H as [H|H]; [discriminate H|]); contradiction.
Qed.

(** X4: a g:Path payload whose "labels" and "objects" are lists decodes to a
    Path whose labels are the sets of the label lists and whose objects are
    the decoded objects, both in the order of the payload. *)
Theorem Path_objectify_keeps_order (self : GraphSONIO) (d : dict_items)
    (ls os labels objects : list pyobj) :
  dict_get d "labels" = Some (PyList ls) ->
  dict_get d "objects" = Some (PyList os) ->
  Forall2 (fun l l' => py_set l = Ok l') ls labels ->
  Forall2 (fun o o' => toObject self o = Ok o') os objects ->
  objectify (toObject self) PathDeserializer (PyDict d)
  = Ok (Path labels objects).
Proof.
  intros Hl Ho Hls Hos. cbn [objectify].
  rewrite PathDeserializer_objectify_eq.
  rewrite (getitem_present _ _ _ Hl). cbn [bind py_iter].
  apply mapM_Forall2 in Hls. rewrite Hls. cbn [bind].
  rewrite (getitem_present _ _ _ Ho). cbn [bind py_iter].
  apply mapM_Forall2 in Hos. rewrite Hos. reflexivity.
Qed.

(** ** Registries as dicts *)

Section AssocFacts.
Context {K V : Type}.
Variable eqb : K -> K -> bool.
Hypothesis eqb_eq : forall a b, eqb a b = true <-> a = b.

Lemma assoc_get_set (d : list (K * V)) (k : K) (v : V) (k' : K) :
  assoc_get eqb (assoc_set eqb d k v) k'
  = if eqb k k' then Some v else assoc_get eqb d k'.
Proof.
  induction d as [|[k0 v0] rest IH]; simpl; [reflexivity|].
  destruct (eqb k0 k) eqn:E0; simpl.
  - apply eqb_eq in E0. subst k0. destruct (eqb k k'); reflexivity.
  - rewrite IH. destruct (eqb k0 k') eqn:E1; [|reflexivity].
    destruct (eqb k k') eqn:E2; [|reflexivity].
    apply eqb_eq in E1, E2. subst. 
    assert (eqb k' k' = true) by now apply eqb_eq. congruence.
Qed.

Lemma assoc_get_app (d1 d2 : list (K * V)) (k : K) :
  assoc_get eqb (d1 ++ d2)%list k
  = match assoc_get eqb d1 k with
    | Some v => Some v
    | None => assoc_get eqb d2 k
    end.
Proof.
  induction d1 as [|[k0 v0] rest IH]; simpl; [reflexivity|].
  destruct (eqb k0 k); auto.
Qed.

Lemma assoc_update_get (d m : list (K * V)) (k : K) :
  assoc_get eqb (assoc_update eqb d m) k
  = match assoc_get eqb (rev m) k with
    | Some v => Some v
    | None => assoc_get eqb d k
    end.
Proof.
  unfold assoc_update. revert d.
  induction m as [|[k0 v0] rest IH]; intros d; simpl; [reflexivity|].
  rewrite IH, assoc_get_app, assoc_get_set. simpl.
  destruct (assoc_get eqb (rev rest) k); [reflexivity|].
  destruct (eqb k0 k); reflexivity.
Qed.

Lemma assoc_set_keys (d : list (K * V)) (k : K) (v : V) :
  exists extra, map fst (assoc_set eqb d k v) = (map fst d ++ extra)%list.
Proof.
  induction d as [|[k0 v0] rest (extra & IH)]; simpl.
  - exists [k]. reflexivity.
  - destruct (eqb k0 k); simpl.
    + exists []. now rewrite app_nil_r.
    + exists extra. now rewrite IH.
Qed.

Lemma assoc_update_keys (d m : list (K * V)) :
  exists extra, map fst (assoc_update eqb d m) = (map fst d ++ extra)%list.
Proof.
  unfold assoc_update. revert d.
  induction m as [|[k0 v0] rest IH]; intros d; simpl.
  - exists []. now rewrite app_nil_r.
  - destruct (IH (assoc_set eqb d k0 v0)) as (extra & E).
    destruct (assoc_set_keys d k0 v0) as (extra0 & E0).
    exists (extra0 ++ extra)%list. now rewrite E, E0, app_assoc.
Qed.



Lemma assoc_get_In (d : list (K * V)) (k : K) (v : V) :
  assoc_get eqb d k = Some v -> In (k, v) d.
Proof.
  induction d as [|[k0 v0] rest IH]; simpl; [discriminate|].
  destruct (eqb k0 k) eqn:E.
  - apply eqb_eq in E. subst. intros H. injection H as <-. now left.
  - intros H. right. now apply IH.
Qed.

(** The entry [find] stops at, when the keys before it fail the test. *)
Lemma find_first_key (q : K -> bool) (d : list (K * V)) (before : list K)
    (k : K) (after : list K) :
  map fst d = (before ++ k :: after)%list ->
  forallb (fun k0 => negb (q k0)) before = true ->
  forallb (fun k0 => negb (eqb k0 k)) before = true ->
  q k = true ->
  exists v, find (fun entry => q (fst entry)) d = Some (k, v)
            /\ assoc_get eqb d k = Some v.
Proof.
  revert d. induction before as [|b before IH]; intros d Hkeys Hq Hne Hk.
  - destruct d as [|[k0 v0] rest]; [discriminate|].
    simpl in Hkeys. injection Hkeys as -> _. exists v0. simpl. rewrite Hk.
    assert (eqb k k = true) as -> by now apply eqb_eq. auto.
  - destruct d as [|[k0 v0] rest]; [discriminate|].
    simpl in Hkeys. injection Hkeys as -> Hkeys.
    simpl in Hq, Hne. apply andb_prop in Hq as [Hb Hq].
    apply andb_prop in Hne as [Hbk Hne].
    destruct (IH rest Hkeys Hq Hne Hk) as (v & F & G).
    exists v. simpl.
    apply negb_true_iff in Hb, Hbk. rewrite Hb, Hbk. auto.
Qed.
End AssocFacts.

Lemma Cls_eqb_eq (a b : Cls.t) : Cls.eqb a b = true <-> a = b.
Proof.
  unfold Cls.eqb. destruct (Cls.eq_dec a b); split; congruence.
Qed.

(** ** The metaclass and the constructor of the session *)

Lemma String_eqb_eq (a b : string) : String.eqb a b = true <-> a = b.
Proof. apply String.eqb_eq. Qed.


Lemma registered_consistently_empty : registered_consistently ([], []).
Proof.
  split; [constructor|]. split; [constructor|].
  split; intros ? ? [].
Qed.


Lemma serializers_init (serializer_map : option serializer_map_t)
    (deserializer_map : option deserializer_map_t) :
  serializers (GraphSONIO_init serializer_map deserializer_map)
  = assoc_update Cls.eqb _serializers (given serializer_map).
Proof. destruct serializer_map; reflexivity. Qed.

Lemma deserializers_init (serializer_map : option serializer_map_t)
    (deserializer_map : option deserializer_map_t) :
  deserializers (GraphSONIO_init serializer_map deserializer_map)
  = assoc_update String.eqb _deserializers (given deserializer_map).
Proof. destruct deserializer_map; reflexivity. Qed.

(** X6: in a session built with caller-supplied maps, a type or tag of the
    caller's map has the caller's unit (the last one given for it), every
    other type or tag keeps the unit of the module; so a caller-supplied
    decoder is the one [toObject] calls for its tag.  Maps that are None or
    empty give the registries of the module. *)
Theorem GraphSONIO_init_overrides (serializer_map : option serializer_map_t)
    (deserializer_map : option deserializer_map_t) :
  let io := GraphSONIO_init serializer_map deserializer_map in
  (forall t,
     assoc_get Cls.eqb (serializers io) t
     = match assoc_get Cls.eqb (rev (given serializer_map)) t with
       | Some serializer => Some serializer
       | None => assoc_get Cls.eqb _serializers t
       end)
  /\ (forall tag,
        assoc_get String.eqb (deserializers io) tag
        = match assoc_get String.eqb (rev (given deserializer_map)) tag with
          | Some deserializer => Some deserializer
          | None => assoc_get String.eqb _deserializers tag
          end)
  /\ (forall tag deserializer payload,
        assoc_get String.eqb (rev (given deserializer_map)) tag
        = Some deserializer ->
        toObject io (envelope tag payload)
        = try_except_KeyError
            (objectify (toObject io) deserializer payload)
            (dict_comprehension (toObject io)
               [(PyStr _TYPE_KEY, PyStr tag); (PyStr _VALUE_KEY, payload)]))
  /\ (given serializer_map = [] -> given deserializer_map = [] ->
      io = default_io).
Proof.
  intros io. subst io. split; [|split; [|split]].
  - intros t. rewrite serializers_init.
    apply (assoc_update_get _ Cls_eqb_eq).
  - intros tag. rewrite deserializers_init.
    apply (assoc_update_get _ String_eqb_eq).
  - intros tag deserializer payload H. apply toObject_envelope.
    rewrite deserializers_init, (assoc_update_get _ String_eqb_eq), H.
    reflexivity.
  - intros Hs Hd.
    destruct serializer_map as [sm|], deserializer_map as [dm|];
      cbn [given] in Hs, Hd; subst; reflexivity.
Qed.

(** X7: dispatch among overlapping types follows the order of the encode
    map, in which the types of the module come first, in the order of the
    class definitions.  A boolean is an instance of [IntType] and of nothing
    registered before it, and a long of [LongType], registered before
    [IntType]: whatever maps the caller supplies, a boolean is encoded by the
    unit under [IntType] and a long by the unit under [LongType].  A unit the
    caller registers under [bool] itself is never used, and unless the caller
    replaces the unit under [IntType] a boolean is encoded as itself. *)
Theorem subclass_dispatch_follows_registration_order
    (serializer_map : option serializer_map_t)
    (deserializer_map : option deserializer_map_t) (b : bool) (n : Z) :
  let io := GraphSONIO_init serializer_map deserializer_map in
  let under (t : Cls.t) (builtin : codec) :=
    match assoc_get Cls.eqb (rev (given serializer_map)) t with
    | Some serializer => serializer
    | None => builtin
    end in
  find_serializer io (PyBool b) = Some (Cls.IntType, under Cls.IntType Int32IO)
  /\ find_serializer io (PyLong n)
     = Some (Cls.LongType, under Cls.LongType Int64IO)
  /\ (assoc_get Cls.eqb (rev (given serializer_map)) Cls.IntType = None ->
      toDict io (PyBool b) = Ok (PyBool b)).
Proof.
  intros io under.
  destruct (assoc_update_keys Cls.eqb _serializers (given serializer_map))
    as (extra & Hkeys).
  assert (Hb : find_serializer io (PyBool b)
               = Some (Cls.IntType, under Cls.IntType Int32IO)).
  { unfold find_serializer. subst io. rewrite serializers_init.
    destruct (find_first_key Cls.eqb Cls_eqb_eq
                (fun k => isinstance (PyBool b) k)
                (assoc_update Cls.eqb _serializers (given serializer_map))
                [Cls.Traversal; Cls.Bytecode; Cls.TraversalStrategy;
                 Cls.Traverser; Cls.Enum; Cls.P; Cls.Binding;
                 Cls.FunctionType; Cls.TypeType; Cls.FloatType; Cls.LongType]
                Cls.IntType extra)
      as (v & F & G); try reflexivity.
    { rewrite Hkeys. reflexivity. }
    rewrite F. f_equal. f_equal.
    rewrite (assoc_update_get _ Cls_eqb_eq) in G. subst under. cbv beta.
    destruct (assoc_get Cls.eqb (rev (given serializer_map)) Cls.IntType);
      now injection G as <-. }
  split; [exact Hb|]. split.
  - unfold find_serializer. subst io. rewrite serializers_init.
    destruct (find_first_key Cls.eqb Cls_eqb_eq
                (fun k => isinstance (PyLong n) k)
                (assoc_update Cls.eqb _serializers (given serializer_map))
                [Cls.Traversal; Cls.Bytecode; Cls.TraversalStrategy;
                 Cls.Traverser; Cls.Enum; Cls.P; Cls.Binding;
                 Cls.FunctionType; Cls.TypeType; Cls.FloatType]
                Cls.LongType (Cls.IntType :: extra))
      as (v & F & G); try reflexivity.
    { rewrite Hkeys. reflexivity. }
    rewrite F. f_equal. f_equal.
    rewrite (assoc_update_get _ Cls_eqb_eq) in G. subst under. cbv beta.
    destruct (assoc_get Cls.eqb (rev (given serializer_map)) Cls.LongType);
      now injection G as <-.
  - intros Hnone. rewrite toDict_eq, Hb. subst under. cbv beta.
    rewrite Hnone. reflexivity.
Qed.

(** ** Dicts with string keys *)

Lemma dict_set_fresh (acc : dict_items) (k v : pyobj) :
  existsb (fun k0 => py_eqb k0 k) (map fst acc) = false ->
  dict_set acc k v = (acc ++ [(k, v)])%list.
Proof.
  induction acc as [|[k0 v0] rest IH]; simpl; [reflexivity|].
  intros H. apply orb_false_elim in H as [H0 H]. rewrite H0.
  now rewrite IH.
Qed.

Lemma distinct_str_keys_before (l1 : list pyobj) (k : pyobj)
    (l2 : list pyobj) :
  distinct_str_keys (l1 ++ k :: l2)%list = true ->
  existsb (fun k0 => py_eqb k0 k) l1 = false /\ hashable k = true.
Proof.
  induction l1 as [|k1 rest IH]; simpl; intros H.
  - split; [reflexivity|].
    apply andb_prop in H as [H _]. apply andb_prop in H as [H _].
    destruct k; try discriminate H; reflexivity.
  - apply andb_prop in H as [H Hrest].
    apply andb_prop in H as [_ H]. apply negb_true_iff in H.
    rewrite existsb_app in H. apply orb_false_elim in H as [_ H].
    simpl in H. apply orb_false_elim in H as [H _].
    destruct (IH Hrest) as [E Hh]. rewrite H, E. auto.
Qed.

Lemma dict_comprehension_from_str_keys (f : pyobj -> result pyobj)
    (acc items items' : dict_items) :
  Forall2 (fun kv kv' => fst kv' = fst kv
                         /\ f (fst kv) = Ok (fst kv)
                         /\ f (snd kv) = Ok (snd kv')) items items' ->
  distinct_str_keys (map fst acc ++ map fst items)%list = true ->
  dict_comprehension_from f acc items = Ok (acc ++ items')%list.
Proof.
  intros H. revert acc.
  induction H as [|[k v] [k' v'] items items' (Ek & Hk & Hv) _ IH];
    intros acc Hd; simpl in *.
  - now rewrite app_nil_r.
  - subst k'. rewrite Hk, Hv. cbn [bind].
    destruct (distinct_str_keys_before _ _ _ Hd) as [Hfresh Hh].
    unfold dict_setitem. rewrite Hh. cbn [bind].
    rewrite (dict_set_fresh _ _ _ Hfresh).
    rewrite IH; [now rewrite <- app_assoc|].
    now rewrite map_app, <- app_assoc.
Qed.

Lemma dict_get_no_key (items : dict_items) (key : string) :
  existsb (is_key key) (map fst items) = false -> dict_get items key = None.
Proof.
  induction items as [|[k v] rest IH]; simpl; [reflexivity|].
  intros H. apply orb_false_elim in H as [H0 H]. rewrite H0. now apply IH.
Qed.

Lemma toObject_no_type_key (self : GraphSONIO) (items : dict_items) :
  existsb (is_key _TYPE_KEY) (map fst items) = false ->
  toObject self (PyDict items) = dict_comprehension (toObject self) items.
Proof.
  intros H. rewrite toObject_dict_eq.
  rewrite (getitem_missing _ _ (dict_get_no_key _ _ H)). reflexivity.
Qed.

Lemma distinct_str_keys_toObject (self : GraphSONIO) (keys : list pyobj) :
  distinct_str_keys keys = true ->
  Forall (fun k => toObject self k = Ok k) keys.
Proof.
  induction keys as [|k rest IH]; simpl; intros H; constructor.
  - apply andb_prop in H as [H _]. apply andb_prop in H as [H _].
    destruct k; try discriminate H; reflexivity.
  - apply IH. now apply andb_prop in H as [_ H].
Qed.

(** ** Decoding what carries no tag, and what carries one *)

(** X8: [toObject] returns unchanged every value in which no dict it comes
    to has the "@type" key (the keys being distinct strings, as in a parsed
    JSON document): plain lists and maps are rebuilt entry by entry, in the
    same order, and every other value is passed through, in any session. *)
Theorem toObject_untagged_identity (self : GraphSONIO) (obj : pyobj) :
  untagged obj = true -> toObject self obj = Ok obj.
Proof.
  induction obj as [ | | | | | |l IHl| | |items IHitems| | | | | | | | | | | | | | | ]
    using pyobj_ind; intros Hu; try reflexivity.
  - cbn [toObject untagged] in *.
    assert (E : mapM (toObject self) l = Ok l).
    { induction IHl as [|a Ha l Hl IH]; [reflexivity|].
      cbn [forallb] in Hu. apply andb_prop in Hu as [Hua Hu].
      cbn [mapM]. rewrite (Ha Hua). cbn [bind]. rewrite (IH Hu). reflexivity. }
    rewrite E. reflexivity.
  - cbn [untagged] in Hu. apply andb_prop in Hu as [Hu Hvals].
    apply andb_prop in Hu as [Hkeys Hno]. apply negb_true_iff in Hno.
    rewrite (toObject_no_type_key _ _ Hno). unfold dict_comprehension.
    rewrite (dict_comprehension_from_str_keys _ [] items items);
      [reflexivity | | exact Hkeys].
    pose proof (distinct_str_keys_toObject self _ Hkeys) as Hk.
    clear Hkeys Hno.
    induction IHitems as [|kv Hkv rest _ IH]; constructor.
    + destruct Hkv as [k _ v Hv]. cbn [fst snd map forallb] in *.
      apply andb_prop in Hvals as [Hv' _].
      inversion Hk; subst. auto.
    + cbn [map forallb] in *. apply andb_prop in Hvals as [_ Hvals].
      inversion Hk; subst. now apply IH.
Qed.

(** X9: when a dict holds the "@type" key with a registered tag and the
    "@value" key, and the decoder of the tag returns a value for the payload,
    [toObject] returns that value: the other entries of the dict are dropped,
    and the order of the entries plays no role.  When the decoder raises an
    exception that is not a KeyError, [toObject] raises it. *)
Theorem toObject_returns_what_the_decoder_returns (self : GraphSONIO)
    (items : dict_items) (tag : string) (deserializer : codec)
    (payload : pyobj) :
  dict_get items _TYPE_KEY = Some (PyStr tag) ->
  assoc_get String.eqb (deserializers self) tag = Some deserializer ->
  dict_get items _VALUE_KEY = Some payload ->
  (forall r, objectify (toObject self) deserializer payload = Ok r ->
             toObject self (PyDict items) = Ok r
             /\ toObject self (PyDict items)
                = toObject self (envelope tag payload))
  /\ (forall e, objectify (toObject self) deserializer payload = Raise e ->
                e <> KeyError ->
                toObject self (PyDict items) = Raise e).
Proof.
  intros Htag Hreg Hvalue.
  assert (E : toObject self (PyDict items)
              = try_except_KeyError
                  (objectify (toObject self) deserializer payload)
                  (dict_comprehension (toObject self) items)).
  { rewrite toObject_dict_eq.
    rewrite (getitem_present _ _ _ Htag). cbn [bind lookup_deserializer].
    rewrite Hreg. cbn [bind].
    rewrite (getitem_present _ _ _ Hvalue). reflexivity. }
  split.
  - intros r Hr. rewrite E, (toObject_envelope _ _ _ _ Hreg), Hr. auto.
  - intros e He Hne. rewrite E, He. destruct e; try reflexivity. congruence.
Qed.

(** ** Round trips of plain data *)

Lemma toDict_default_str (s : string) :
  toDict default_io (PyStr s) = Ok (PyStr s).
Proof. reflexivity. Qed.

Lemma distinct_str_keys_toDict (keys : list pyobj) :
  distinct_str_keys keys = true ->
  Forall (fun k => toDict default_io k = Ok k) keys.
Proof.
  induction keys as [|k rest IH]; simpl; intros H; constructor.
  - apply andb_prop in H as [H _]. apply andb_prop in H as [H _].
    destruct k; try discriminate H; reflexivity.
  - apply IH. now apply andb_prop in H as [_ H].
Qed.

Lemma toDict_default_list (l : list pyobj) :
  toDict default_io (PyList l)
  = (l' <- mapM (toDict default_io) l ;; Ok (PyList l')).
Proof. reflexivity. Qed.

Lemma toDict_default_dict (items : dict_items) :
  toDict default_io (PyDict items)
  = dict_comprehension (toDict default_io) items.
Proof. reflexivity. Qed.

Lemma json_data_roundtrip (obj : pyobj) :
  json_data obj = true ->
  exists w, toDict default_io obj = Ok w /\ toObject default_io w = Ok obj.
Proof.
  induction obj as [ | | | | | |l IHl| | |items IHitems| | | | |o IHo b IHb| | | | | | | | | | ]
    using pyobj_ind; intros Hj; try discriminate Hj;
    try (now apply codec_handled_roundtrip).
  - exists PyNone. split; reflexivity.
  - exists (PyStr s). split; reflexivity.
  - (* list *)
    cbn [json_data] in Hj.
    assert (E : exists l', mapM (toDict default_io) l = Ok l'
                           /\ mapM (toObject default_io) l' = Ok l).
    { induction IHl as [|a Ha l Hl IH]; [exists []; split; reflexivity|].
      cbn [forallb] in Hj. apply andb_prop in Hj as [Hja Hj].
      destruct (Ha Hja) as (w & Ew & Dw). destruct (IH Hj) as (l' & El & Dl).
      exists (w :: l'). cbn [mapM]. rewrite Ew, Dw. cbn [bind].
      rewrite El, Dl. split; reflexivity. }
    destruct E as (l' & El & Dl). exists (PyList l').
    rewrite toDict_default_list, El. cbn [bind toObject]. rewrite Dl.
    split; reflexivity.
  - (* dict *)
    cbn [json_data] in Hj. apply andb_prop in Hj as [Hj Hvals].
    apply andb_prop in Hj as [Hkeys Hno]. apply negb_true_iff in Hno.
    assert (E : exists items',
               map fst items' = map fst items
               /\ Forall2 (fun kv kv' => fst kv' = fst kv
                             /\ toDict default_io (fst kv) = Ok (fst kv)
                             /\ toDict default_io (snd kv) = Ok (snd kv'))
                    items items'
               /\ Forall2 (fun kv' kv => fst kv = fst kv'
                             /\ toObject default_io (fst kv') = Ok (fst kv')
                             /\ toObject default_io (snd kv') = Ok (snd kv))
                    items' items).
    { pose proof (distinct_str_keys_toDict _ Hkeys) as Hk.
      pose proof (distinct_str_keys_toObject default_io _ Hkeys) as Hk'.
      clear Hkeys Hno.
      induction IHitems as [|kv Hkv rest _ IH].
      - exists []. repeat split; constructor.
      - cbn [map forallb] in *. apply andb_prop in Hvals as [Hv Hvals].
        inversion Hk; subst. inversion Hk'; subst.
        destruct IH as (rest' & Ekeys & F1 & F2); try assumption.
        destruct Hkv as [k _ v Hpv]. cbn [fst snd] in *.
        destruct (Hpv Hv) as (w & Ew & Dw).
        exists ((k, w) :: rest'). cbn [map fst]. rewrite Ekeys.
        split; [reflexivity|]. split; constructor; auto. }
    destruct E as (items' & Ekeys & F1 & F2).
    exists (PyDict items'). split.
    + rewrite toDict_default_dict. unfold dict_comprehension.
      now rewrite (dict_comprehension_from_str_keys _ [] _ _ F1 Hkeys).
    + rewrite toObject_no_type_key by now rewrite Ekeys.
      unfold dict_comprehension.
      rewrite (dict_comprehension_from_str_keys _ [] _ _ F2);
        [reflexivity | now rewrite Ekeys].
  - (* Traverser *)
    cbn [json_data] in Hj. apply andb_prop in Hj as [H1 H2].
    destruct (IHo H1) as (v & Ev & Dv). destruct (IHb H2) as (w & Ew & Dw).
    exists (envelope "g:Traverser"
              (PyDict [(PyStr "value", v); (PyStr "bulk", w)])).
    split.
    + rewrite toDict_eq, find_serializer_default_Traverser.
      cbn [dictify TraverserIO_dictify]. rewrite Ev. cbn [bind]. rewrite Ew.
      reflexivity.
    + apply TraverserIO_roundtrip; assumption.
Qed.

(** X10: with the default registry, decoding what encoding returns gives the
    value back for all plain data: None, booleans, numbers, strings, lists,
    dicts under distinct string keys other than "@type", and traversers of
    such values, nested to any depth.  Encoding such a value never raises. *)
Theorem json_data_round_trips (obj : pyobj) :
  json_data obj = true ->
  (exists w, toDict default_io obj = Ok w)
  /\ (w <- toDict default_io obj ;; toObject default_io w) = Ok obj.
Proof.
  intros H. destruct (json_data_roundtrip obj H) as (w & E & D).
  split; [now exists w|]. rewrite E. exact D.
Qed.

Lemma objectify_not_a_dict (toObject' : pyobj -> result pyobj)
    (deserializer : codec) (d r : pyobj) :
  objectify toObject' deserializer d = Ok r ->
  forall items, r <> PyDict items.
Proof.
  intros H items ->.
  destruct deserializer; cbn [objectify] in H; try discriminate H;
    unfold TraverserIO_objectify, VertexDeserializer_objectify,
      EdgeDeserializer_objectify, VertexPropertyDeserializer_objectify,
      PropertyDeserializer_objectify, PathDeserializer_objectify,
      _NumberIO_objectify in H; cbn [python_type] in H;
    repeat (cbv beta in H;
            first [ rewrite getitem_k_spec in H
                  | apply bind_Ok in H; destruct H as (? & ? & H) ]);
    discriminate H.
Qed.

(** X11: the "@type" key is what the round trip of X10 must leave out.  A
    dict of the caller that itself has the shape of an envelope, "@type" with
    a registered tag and "@value", is encoded entry by entry like any dict,
    and then decoded by the decoder of the tag: when that decoder accepts the
    encoded "@value", the round trip returns the decoder's value, which is no
    dict, and not the caller's dict. *)
Theorem envelope_shaped_dict_does_not_round_trip (tag : string)
    (deserializer : codec) (value value' r : pyobj) :
  assoc_get String.eqb (deserializers default_io) tag = Some deserializer ->
  toDict default_io value = Ok value' ->
  objectify (toObject default_io) deserializer value' = Ok r ->
  toDict default_io (envelope tag value) = Ok (envelope tag value')
  /\ (w <- toDict default_io (envelope tag value) ;; toObject default_io w)
     = Ok r
  /\ r <> envelope tag value.
Proof.
  intros Hreg Hv Hr.
  assert (E : toDict default_io (envelope tag value)
              = Ok (envelope tag value')).
  { unfold envelope. rewrite toDict_default_dict. unfold dict_comprehension.
    cbn [dict_comprehension_from]. rewrite !toDict_default_str. cbn [bind].
    rewrite Hv. reflexivity. }
  split; [exact E|]. split.
  - rewrite E. cbn [bind]. rewrite (toObject_envelope _ _ _ _ Hreg), Hr.
    reflexivity.
  - apply (objectify_not_a_dict _ _ _ _ Hr).
Qed.

(** ** Numbers on the wire *)

Lemma py_int_value_not_KeyError (v : pyobj) :
  py_int_value v <> Raise KeyError.
Proof.
  destruct v; try discriminate.
  - destruct x; discriminate.
  - cbn. destruct (int_of_str s); discriminate.
Qed.

Lemma py_float_value_not_KeyError (v : pyobj) :
  py_float_value v <> Raise KeyError.
Proof.
  assert (F : forall n, float_of_Z n <> Raise KeyError).
  { intros n. unfold float_of_Z.
    destruct (binary_normalize 53 1024 n 0 false); discriminate. }
  destruct v; try discriminate; try apply F.
  cbn. destruct (float_of_str s); discriminate.
Qed.

Lemma bind_not_KeyError {A B : Type} (r : result A) (k : A -> B) :
  r <> Raise KeyError -> (a <- r ;; Ok (k a)) <> Raise KeyError.
Proof. destruct r; simpl; [discriminate | congruence]. Qed.

Lemma numeric_envelope_decodes (payload : pyobj) :
  toObject default_io (envelope "g:Int32" payload)
  = (n <- py_int_value payload ;; Ok (PyInt n))
  /\ toObject default_io (envelope "g:Int64" payload)
     = (n <- py_int_value payload ;; Ok (PyLong n))
  /\ toObject default_io (envelope "g:Double" payload)
     = (x <- py_float_value payload ;; Ok (PyFloat x))
  /\ toObject default_io (envelope "g:Float" payload)
     = (x <- py_float_value payload ;; Ok (PyFloat x)).
Proof.
  split; [|split; [|split]].
  - rewrite (toObject_envelope _ _ Int32IO) by reflexivity.
    apply try_except_KeyError_passes.
    apply bind_not_KeyError, py_int_value_not_KeyError.
  - rewrite (toObject_envelope _ _ Int64IO) by reflexivity.
    apply try_except_KeyError_passes.
    apply bind_not_KeyError, py_int_value_not_KeyError.
  - rewrite (toObject_envelope _ _ DoubleIO) by reflexivity.
    apply try_except_KeyError_passes.
    apply bind_not_KeyError, py_float_value_not_KeyError.
  - rewrite (toObject_envelope _ _ FloatIO) by reflexivity.
    apply try_except_KeyError_passes.
    apply bind_not_KeyError, py_float_value_not_KeyError.
Qed.


(** X13: decoding a numeric envelope and encoding the result again, with the
    default registry, keeps the tags g:Int32, g:Int64 and g:Double, and turns
    g:Float into g:Double: the float it decodes to is encoded by the unit
    registered under the float type, which is [DoubleIO]. *)
Theorem numeric_envelope_reencoded (n : Z) (x : spec_float) :
  (v <- toObject default_io (envelope "g:Int32" (PyInt n)) ;;
   toDict default_io v) = Ok (envelope "g:Int32" (PyInt n))
  /\ (v <- toObject default_io (envelope "g:Int64" (PyInt n)) ;;
      toDict default_io v) = Ok (envelope "g:Int64" (PyLong n))
  /\ (v <- toObject default_io (envelope "g:Double" (PyFloat x)) ;;
      toDict default_io v) = Ok (envelope "g:Double" (PyFloat x))
  /\ (v <- toObject default_io (envelope "g:Float" (PyFloat x)) ;;
      toDict default_io v) = Ok (envelope "g:Double" (PyFloat x)).
Proof.
  destruct (numeric_envelope_decodes (PyInt n)) as (I32 & I64 & _).
  destruct (numeric_envelope_decodes (PyFloat x)) as (_ & _ & D & F).
  rewrite I32, I64, F, D. cbn [py_int_value py_float_value bind].
  rewrite !toDict_eq, find_serializer_default_int,
    find_serializer_default_long, find_serializer_default_float.
  repeat split.
Qed.

(** ** Encoding collections *)

Lemma dict_comprehension_from_app (f : pyobj -> result pyobj)
    (acc l1 l2 : dict_items) :
  dict_comprehension_from f acc (l1 ++ l2)%list
  = (acc' <- dict_comprehension_from f acc l1 ;;
     dict_comprehension_from f acc' l2).
Proof.
  revert acc. induction l1 as [|[k v] rest IH]; intros acc; [reflexivity|].
  cbn [app dict_comprehension_from].
  destruct (f k) as [k'|]; [|reflexivity]. cbn [bind].
  destruct (f v) as [v'|]; [|reflexivity]. cbn [bind].
  destruct (dict_setitem acc k' v'); [|reflexivity]. cbn [bind]. apply IH.
Qed.

(** X14: with the default registry a list is encoded as the list of its
    encoded members, in order, and a set as the same list: [toDict] returns
    a list for it, so a set of plain data comes back from the round trip as
    a list.  Encoding succeeds exactly when every member is encoded. *)
Theorem toDict_list_and_set (l : list pyobj) (w : pyobj) :
  (toDict default_io (PyList l) = Ok w
   <-> exists l', w = PyList l'
                  /\ Forall2 (fun a a' => toDict default_io a = Ok a') l l')
  /\ toDict default_io (PySet l) = toDict default_io (PyList l)
  /\ (forallb json_data l = true ->
      (d <- toDict default_io (PySet l) ;; toObject default_io d)
      = Ok (PyList l)).
Proof.
  split; [|split].
  - rewrite toDict_default_list. split.
    + intros H. apply bind_Ok in H as (l' & E & H). injection H as <-.
      exists l'. split; [reflexivity | now apply mapM_Forall2].
    + intros (l' & -> & H). apply mapM_Forall2 in H. now rewrite H.
  - reflexivity.
  - intros H.
    change (toDict default_io (PySet l)) with (toDict default_io (PyList l)).
    destruct (json_data_roundtrip (PyList l) H) as (d & E & D).
    rewrite E. exact D.
Qed.

(** X15: a dict cannot be encoded when one of its keys is encoded to a dict
    or a list, as every number that is not a boolean is (its encoding is an
    envelope): storing the pair under the encoded key raises TypeError.
    The entries before it and the value of the entry are encoded first. *)
Theorem toDict_rejects_unhashable_encoded_key (before after done : dict_items)
    (k v k' v' : pyobj) :
  dict_comprehension_from (toDict default_io) [] before = Ok done ->
  toDict default_io k = Ok k' ->
  hashable k' = false ->
  toDict default_io v = Ok v' ->
  toDict default_io (PyDict (before ++ (k, v) :: after)) = Raise TypeError
  /\ (forall n, is_number n = true ->
        exists n', toDict default_io n = Ok n' /\ hashable n' = false).
Proof.
  intros Hb Hk Hh Hv. split.
  - rewrite toDict_default_dict. unfold dict_comprehension.
    rewrite dict_comprehension_from_app, Hb. cbn [bind dict_comprehension_from].
    rewrite Hk, Hv. cbn [bind]. unfold dict_setitem. rewrite Hh. reflexivity.
  - intros n Hn. destruct n; try discriminate Hn.
    + exists (envelope "g:Int32" (PyInt n)). split; reflexivity.
    + exists (envelope "g:Int64" (PyLong n)). split; reflexivity.
    + exists (envelope "g:Double" (PyFloat x)). split; reflexivity.
Qed.

(** ** Strategies, bindings, lambdas *)

(** X16: a traversal strategy is encoded under its own name as tag, not
    under a fixed one, with its encoded configuration as payload; a strategy
    whose configuration is None is encoded as the tag alone, a dict without
    the "@value" key.  A binding is encoded as a g:Binding envelope that
    holds the key as it is and the encoded value, also when that is None. *)
Theorem Strategy_and_Binding_dictify_shape (self : GraphSONIO)
    (strategy_name key : string) (configuration value c' v' : pyobj) :
  toDict self configuration = Ok c' ->
  toDict self value = Ok v' ->
  (c' <> PyNone ->
   dictify (toDict self) TraversalStrategySerializer
     (TraversalStrategy strategy_name configuration)
   = Ok (envelope ("g:" ++ strategy_name) c'))
  /\ (c' = PyNone ->
      dictify (toDict self) TraversalStrategySerializer
        (TraversalStrategy strategy_name configuration)
      = Ok (PyDict [(PyStr "@type", PyStr ("g:" ++ strategy_name))]))
  /\ (find_serializer self PyNone = None ->
      dictify (toDict self) TraversalStrategySerializer
        (TraversalStrategy strategy_name PyNone)
      = Ok (PyDict [(PyStr "@type", PyStr ("g:" ++ strategy_name))]))
  /\ dictify (toDict self) BindingSerializer (Binding key value)
     = Ok (envelope "g:Binding"
             (PyDict [(PyStr "key", PyStr key); (PyStr "value", v')])).
Proof.
  intros Hc Hv. split; [|split; [|split]].
  - intros Hne. cbn [dictify TraversalStrategySerializer_dictify].
    rewrite Hc. cbn [bind]. unfold typedValue, envelope.
    destruct c'; try reflexivity. congruence.
  - intros ->. cbn [dictify TraversalStrategySerializer_dictify].
    rewrite Hc. reflexivity.
  - intros Hnone. cbn [dictify TraversalStrategySerializer_dictify].
    rewrite toDict_eq, Hnone. reflexivity.
  - cbn [dictify BindingSerializer_dictify]. rewrite Hv. reflexivity.
Qed.




(** ** Properties of vertices and of edges *)

(** X18: a g:VertexProperty payload is decoded to a VertexProperty with the
    decoded id, the label as it is and the decoded value, a g:Property
    payload to a Property with the key as it is and the decoded value.
    Unlike that of a vertex, the label of a vertex property has no default:
    when it is missing, and the id is decoded, the decoder raises KeyError
    and [toObject] returns the envelope decoded as an ordinary map. *)
Theorem VertexProperty_and_Property_objectify (self : GraphSONIO)
    (d : dict_items) (v value' : pyobj) :
  dict_get d "value" = Some v ->
  toObject self v = Ok value' ->
  (forall i id' label,
     dict_get d "id" = Some i -> toObject self i = Ok id' ->
     dict_get d "label" = Some label ->
     objectify (toObject self) VertexPropertyDeserializer (PyDict d)
     = Ok (VertexProperty id' label value'))
  /\ (forall i id',
        dict_get d "id" = Some i -> toObject self i = Ok id' ->
        dict_get d "label" = None ->
        objectify (toObject self) VertexPropertyDeserializer (PyDict d)
        = Raise KeyError
        /\ (assoc_get String.eqb (deserializers self) "g:VertexProperty"
            = Some VertexPropertyDeserializer ->
            toObject self (envelope "g:VertexProperty" (PyDict d))
            = dict_comprehension (toObject self)
                [(PyStr _TYPE_KEY, PyStr "g:VertexProperty");
                 (PyStr _VALUE_KEY, PyDict d)]))
  /\ (forall key,
        dict_get d "key" = Some key ->
        objectify (toObject self) PropertyDeserializer (PyDict d)
        = Ok (Property key value')).
Proof.
  intros Hv Hval. split; [|split].
  - intros i id' label Hi Hid Hl. cbn [objectify].
    rewrite VertexPropertyDeserializer_objectify_eq.
    rewrite (getitem_present _ _ _ Hi). cbn [bind]. rewrite Hid. cbn [bind].
    rewrite (getitem_present _ _ _ Hl). cbn [bind].
    rewrite (getitem_present _ _ _ Hv). cbn [bind]. rewrite Hval. reflexivity.
  - intros i id' Hi Hid Hl.
    assert (E : objectify (toObject self) VertexPropertyDeserializer (PyDict d)
                = Raise KeyError).
    { cbn [objectify]. rewrite VertexPropertyDeserializer_objectify_eq.
      rewrite (getitem_present _ _ _ Hi). cbn [bind]. rewrite Hid. cbn [bind].
      rewrite (getitem_missing _ _ Hl). reflexivity. }
    split; [exact E|]. intros Hreg.
    rewrite (toObject_envelope _ _ _ _ Hreg), E. reflexivity.
  - intros key Hk. cbn [objectify].
    rewrite PropertyDeserializer_objectify_eq.
    rewrite (getitem_present _ _ _ Hk). cbn [bind].
    rewrite (getitem_present _ _ _ Hv). cbn [bind]. rewrite Hval. reflexivity.
Qed.

End Theory.

(** * The theorems at concrete inputs

    Everything below is evaluated on [example_host]. *)

#[local] Existing Instance example_host.

(** [Traverser(5, long(1))] goes through encoding and decoding unchanged;
    [Traverser(Binding("x", 5), long(1))] does not. *)
Lemma Traverser_roundtrip_example :
  (codec_handled (PyInt 5) = true
   /\ codec_handled (PyLong 1) = true
   /\ (d <- toDict default_io (Traverser (PyInt 5) (PyLong 1)) ;;
       toObject default_io d)
      = Ok (Traverser (PyInt 5) (PyLong 1)))
  /\ (encoder_only (Binding "x" (PyInt 5)) = true
      /\ (d <- toDict default_io (Traverser (Binding "x" (PyInt 5)) (PyLong 1)) ;;
          toObject default_io d)
         <> Ok (Traverser (Binding "x" (PyInt 5)) (PyLong 1))).
Proof.
  split.
  - split; [reflexivity|]. split; [reflexivity|].
    exact (proj2 (proj1 (Traverser_roundtrip (PyInt 5) (PyLong 1))
                    eq_refl eq_refl)).
  - split; [reflexivity|].
    exact (proj2 (Traverser_roundtrip (Binding "x" (PyInt 5)) (PyLong 1))
             (or_introl eq_refl)).
Defined.

(** C1, as stated, fails on [Traverser(P.eq(1), long(1))]: a P is a value a
    built-in codec unit handles ([PSerializer] encodes it), the encoding
    succeeds, and decoding it gives a Traverser that holds not the P but the
    dict of its g:P envelope. *)
Lemma Traverser_of_P_comes_back_with_a_dict :
  find_serializer default_io (P "eq" (PyInt 1) PyNone) = Some (Cls.P, PSerializer)
  /\ toDict default_io (P "eq" (PyInt 1) PyNone)
     = Ok (envelope "g:P"
             (PyDict [(PyStr "predicate", PyStr "eq");
                      (PyStr "value", envelope "g:Int32" (PyInt 1))]))
  /\ (d <- toDict default_io (Traverser (P "eq" (PyInt 1) PyNone) (PyLong 1)) ;;
      toObject default_io d)
     = Ok (Traverser
             (PyDict [(PyStr "@type", PyStr "g:P");
                      (PyStr "@value",
                       PyDict [(PyStr "predicate", PyStr "eq");
                               (PyStr "value", PyInt 1)])])
             (PyLong 1))
  /\ Traverser
       (PyDict [(PyStr "@type", PyStr "g:P");
                (PyStr "@value",
                 PyDict [(PyStr "predicate", PyStr "eq");
                         (PyStr "value", PyInt 1)])])
       (PyLong 1)
     <> Traverser (P "eq" (PyInt 1) PyNone) (PyLong 1).
Proof.
  split; [reflexivity|]. split; [reflexivity|]. split; [reflexivity|].
  discriminate.
Qed.

(** Three envelopes with a registered tag and a payload that lacks a required
    field.  The g:Vertex payload [{"label": "x"}] has no "id", the field read
    first: the decoder raises KeyError and [toObject] returns the envelope as
    a plain dict.  The g:Edge payload with "id" and "outV" has no "inV", the
    field read last: the two fields before it decode, the decoder raises
    KeyError, and [toObject] falls back in the same way.  The g:VertexProperty
    payload has no "value", and its "id", read before, is a g:Int32 envelope
    of None: the TypeError of decoding it leaves the decoder and [toObject].
    The g:Vertex payload [{"label": "x", "extra": ...}] has no "id" and holds
    a g:Int32 envelope of None under "extra": the decoder raises KeyError,
    [toObject] falls back to the generic decoding, and that raises
    TypeError. *)
Lemma missing_field_example :
  let d := [(PyStr "label", PyStr "x")] in
  let items := [(PyStr "@type", PyStr "g:Vertex"); (PyStr "@value", PyDict d)] in
  let d' := [(PyStr "id", envelope "g:Int32" (PyInt 7));
             (PyStr "outV", envelope "g:Int32" (PyInt 1))] in
  let items' := [(PyStr "@type", PyStr "g:Edge"); (PyStr "@value", PyDict d')] in
  let d'' := [(PyStr "id", envelope "g:Int32" PyNone);
              (PyStr "label", PyStr "name")] in
  let items'' := [(PyStr "@type", PyStr "g:VertexProperty");
                  (PyStr "@value", PyDict d'')] in
  let d3 := [(PyStr "label", PyStr "x");
             (PyStr "extra", envelope "g:Int32" PyNone)] in
  let items3 := [(PyStr "@type", PyStr "g:Vertex"); (PyStr "@value", PyDict d3)] in
  (dict_get items _TYPE_KEY = Some (PyStr "g:Vertex")
   /\ assoc_get String.eqb (deserializers default_io) "g:Vertex"
      = Some VertexDeserializer
   /\ dict_get items _VALUE_KEY = Some (PyDict d)
   /\ In "id" (required_fields VertexDeserializer)
   /\ dict_get d "id" = None
   /\ objectify (toObject default_io) VertexDeserializer (PyDict d)
      = Raise KeyError
   /\ toObject default_io (PyDict items)
      = dict_comprehension (toObject default_io) items)
  /\ (dict_get items' _TYPE_KEY = Some (PyStr "g:Edge")
      /\ assoc_get String.eqb (deserializers default_io) "g:Edge"
         = Some EdgeDeserializer
      /\ dict_get items' _VALUE_KEY = Some (PyDict d')
      /\ In "inV" (required_fields EdgeDeserializer)
      /\ dict_get d' "inV" = None
      /\ required_fields EdgeDeserializer = (["id"; "outV"] ++ "inV" :: [])%list
      /\ read_fields (toObject default_io) EdgeDeserializer (PyDict d')
           ["id"; "outV"] = Ok tt
      /\ objectify (toObject default_io) EdgeDeserializer (PyDict d')
         = Raise KeyError
      /\ toObject default_io (PyDict items')
         = dict_comprehension (toObject default_io) items')
  /\ (dict_get items'' _TYPE_KEY = Some (PyStr "g:VertexProperty")
      /\ assoc_get String.eqb (deserializers default_io) "g:VertexProperty"
         = Some VertexPropertyDeserializer
      /\ dict_get items'' _VALUE_KEY = Some (PyDict d'')
      /\ In "value" (required_fields VertexPropertyDeserializer)
      /\ dict_get d'' "value" = None
      /\ required_fields VertexPropertyDeserializer
         = (["id"; "label"] ++ "value" :: [])%list
      /\ read_fields (toObject default_io) VertexPropertyDeserializer
           (PyDict d'') ["id"; "label"] = Raise TypeError
      /\ objectify (toObject default_io) VertexPropertyDeserializer
           (PyDict d'') = Raise TypeError
      /\ toObject default_io (PyDict items'') = Raise TypeError)
  /\ (dict_get items3 _TYPE_KEY = Some (PyStr "g:Vertex")
      /\ dict_get items3 _VALUE_KEY = Some (PyDict d3)
      /\ dict_get d3 "id" = None
      /\ objectify (toObject default_io) VertexDeserializer (PyDict d3)
         = Raise KeyError
      /\ dict_comprehension (toObject default_io) items3 = Raise TypeError
      /\ toObject default_io (PyDict items3) = Raise TypeError).
Proof.
  intros d items d' items' d'' items'' d3 items3.
  pose proof (missing_field_KeyError_is_caught default_io items3 "g:Vertex"
                VertexDeserializer d3 "id" eq_refl eq_refl eq_refl
                (or_introl eq_refl) eq_refl) as H3.
  destruct H3 as (_ & _ & _ & _ & _ & H3 & _).
  pose proof (missing_field_KeyError_is_caught default_io items "g:Vertex"
                VertexDeserializer d "id" eq_refl eq_refl eq_refl
                (or_introl eq_refl) eq_refl) as H.
  pose proof (missing_field_KeyError_is_caught default_io items' "g:Edge"
                EdgeDeserializer d' "inV" eq_refl eq_refl eq_refl
                (or_intror (or_intror (or_introl eq_refl))) eq_refl) as H'.
  pose proof (missing_field_KeyError_is_caught default_io items''
                "g:VertexProperty" VertexPropertyDeserializer d'' "value"
                eq_refl eq_refl eq_refl
                (or_intror (or_intror (or_introl eq_refl))) eq_refl) as H''.
  destruct H as (_ & _ & _ & _ & _ & H & _).
  destruct H' as (_ & _ & _ & _ & _ & H' & _).
  destruct H'' as (_ & _ & _ & _ & _ & H'' & _).
  split; [|split; [|split]].
  - do 3 (split; [reflexivity|]). split; [left; reflexivity|].
    split; [reflexivity|].
    exact (proj1 (proj2 (H [] [] eq_refl)) (or_introl eq_refl)).
  - do 3 (split; [reflexivity|]).
    split; [right; right; left; reflexivity|].
    do 3 (split; [reflexivity|]).
    exact (proj1 (proj2 (H' ["id"; "outV"] [] eq_refl)) (or_introl eq_refl)).
  - do 3 (split; [reflexivity|]).
    split; [right; right; left; reflexivity|].
    do 3 (split; [reflexivity|]).
    refine (proj2 (proj2 (H'' ["id"; "label"] [] eq_refl)) TypeError eq_refl _).
    discriminate.
  - do 3 (split; [reflexivity|]).
    destruct (proj1 (proj2 (H3 [] [] eq_refl)) (or_introl eq_refl)) as [K F].
    split; [exact K|]. split; [reflexivity|].
    exact (eq_trans F eq_refl).
Defined.

(** C2, as stated, fails on the g:Vertex envelope with payload
    [{"label": "x"}]: the tag is registered and the payload has no "id", yet
    [toObject] raises nothing and returns the envelope as a dict. *)
Lemma missing_field_does_not_raise :
  assoc_get String.eqb (deserializers default_io) "g:Vertex"
  = Some VertexDeserializer
  /\ dict_get [(PyStr "label", PyStr "x")] "id" = None
  /\ toObject default_io
       (envelope "g:Vertex" (PyDict [(PyStr "label", PyStr "x")]))
     = Ok (PyDict [(PyStr "@type", PyStr "g:Vertex");
                   (PyStr "@value", PyDict [(PyStr "label", PyStr "x")])]).
Proof. repeat split. Qed.

(** [{"@type": "g:Vertex"}] has no "@value": it is decoded as a dict. *)
Lemma missing_value_key_example :
  let items := [(PyStr "@type", PyStr "g:Vertex")] in
  dict_get items _TYPE_KEY = Some (PyStr "g:Vertex")
  /\ assoc_get String.eqb (deserializers default_io) "g:Vertex"
     = Some VertexDeserializer
  /\ dict_get items _VALUE_KEY = None
  /\ toObject default_io (PyDict items)
     = dict_comprehension (toObject default_io) items.
Proof.
  intros items. do 3 (split; [reflexivity|]).
  exact (proj1 (missing_value_key_decodes_as_map default_io items "g:Vertex"
                  VertexDeserializer eq_refl eq_refl eq_refl)).
Defined.

(** C3, as stated, fails on [{"@type": "g:Vertex"}]: the decoder called with
    None raises TypeError, while [toObject] returns the mapping as a dict. *)
Lemma missing_value_key_not_decoded_with_None :
  assoc_get String.eqb (deserializers default_io) "g:Vertex"
  = Some VertexDeserializer
  /\ dict_get [(PyStr "@type", PyStr "g:Vertex")] _VALUE_KEY = None
  /\ objectify (toObject default_io) VertexDeserializer PyNone
     = Raise TypeError
  /\ toObject default_io (PyDict [(PyStr "@type", PyStr "g:Vertex")])
     = Ok (PyDict [(PyStr "@type", PyStr "g:Vertex")]).
Proof. repeat split. Qed.

(** The example of the spec: [{"@type": "x:Bogus", "@value": {"a": 1}}] is
    decoded as the two-entry dict it is. *)
Lemma unregistered_tag_example :
  let items := [(PyStr "@type", PyStr "x:Bogus");
                (PyStr "@value", PyDict [(PyStr "a", PyInt 1)])] in
  dict_get items _TYPE_KEY = Some (PyStr "x:Bogus")
  /\ assoc_get String.eqb (deserializers default_io) "x:Bogus" = None
  /\ toObject default_io (PyDict items) = Ok (PyDict (dict_of_pairs items))
  /\ dict_of_pairs items = items.
Proof.
  intros items. do 2 (split; [reflexivity|]). split; [|reflexivity].
  apply (proj2 (proj2 (unregistered_tag_decodes_as_map default_io items
                         "x:Bogus" eq_refl eq_refl))).
  repeat constructor.
Defined.

(** C4, as stated, fails on
    [{"@type": "x:Bogus", "@value": {"@type": "g:Int32", "@value": None}}]:
    the tag "x:Bogus" is not registered, the mapping is decoded as an
    ordinary map, and the decoding of its "@value" entry, a g:Int32 envelope
    of None, raises TypeError, which [toObject] raises to its caller. *)
Lemma unregistered_tag_nested_error_raises :
  dict_get [(PyStr "@type", PyStr "x:Bogus");
            (PyStr "@value", envelope "g:Int32" PyNone)] _TYPE_KEY
  = Some (PyStr "x:Bogus")
  /\ assoc_get String.eqb (deserializers default_io) "x:Bogus" = None
  /\ toObject default_io (envelope "g:Int32" PyNone) = Raise TypeError
  /\ toObject default_io
       (PyDict [(PyStr "@type", PyStr "x:Bogus");
                (PyStr "@value", envelope "g:Int32" PyNone)])
     = Raise TypeError.
Proof. repeat split. Qed.

(** [Int32IO] on [True]. *)
Lemma number_dictify_example :
  In Int32IO numeric_units
  /\ dictify (toDict default_io) Int32IO (PyBool true) = Ok (PyBool true)
  /\ dictify (toDict default_io) Int32IO (PyInt 7)
     = Ok (envelope "g:Int32" (PyInt 7)).
Proof.
  assert (Hin : In Int32IO numeric_units) by (simpl; tauto).
  pose proof (number_dictify_boolean_bypass Int32IO (toDict default_io) Hin)
    as (Hb & Hn & _).
  split; [exact Hin|]. split; [apply Hb|].
  destruct (Hn (PyInt 7) eq_refl) as (base & E1 & _ & _ & E2).
  injection E1 as <-. exact E2.
Defined.

(** [P.eq(1)], one operand. *)
Lemma P_dictify_example :
  toDict default_io (PyInt 1) = Ok (envelope "g:Int32" (PyInt 1))
  /\ dictify (toDict default_io) PSerializer (P "eq" (PyInt 1) PyNone)
     = Ok (envelope "g:P"
             (PyDict [(PyStr "predicate", PyStr "eq");
                      (PyStr "value", envelope "g:Int32" (PyInt 1))])).
Proof.
  split; [reflexivity|].
  exact (proj1 (P_dictify_shape default_io "eq" (PyInt 1) PyNone
                  (envelope "g:Int32" (PyInt 1)) eq_refl) eq_refl).
Defined.

(** A Bytecode with the one source instruction [["V", 1]] and no step. *)
Lemma Bytecode_dictify_example :
  let encoded := PyList [PyStr "V"; envelope "g:Int32" (PyInt 1)] in
  Forall2 (instruction_encoded (toDict default_io))
    [[PyStr "V"; PyInt 1]] [encoded]
  /\ Forall2 (instruction_encoded (toDict default_io)) [] []
  /\ dictify (toDict default_io) BytecodeSerializer
       (Bytecode [[PyStr "V"; PyInt 1]] [])
     = Ok (envelope "g:Bytecode"
             (PyDict [(PyStr "source", PyList [encoded])])).
Proof.
  intros encoded.
  assert (Hs : Forall2 (instruction_encoded (toDict default_io))
                 [[PyStr "V"; PyInt 1]] [encoded]).
  { constructor; [|constructor].
    exists (PyStr "V"), [PyInt 1], [envelope "g:Int32" (PyInt 1)].
    repeat split. repeat constructor. }
  split; [exact Hs|]. split; [constructor|].
  exact (proj1 (Bytecode_dictify_shape default_io _ _ _ _ Hs
                  (Forall2_nil _))).
Defined.

(** The example of the spec: [{"@type": "g:Vertex", "@value": {"id": 1}}]
    decodes to a vertex with the empty label. *)
Lemma Vertex_default_label_example :
  toObject default_io (envelope "g:Vertex" (PyDict [(PyStr "id", PyInt 1)]))
  = Ok (Vertex (PyInt 1) (PyStr "")).
Proof.
  exact (proj2 (proj1 (Vertex_Edge_default_label default_io)
                  [(PyStr "id", PyInt 1)] (PyInt 1) (PyInt 1)
                  eq_refl eq_refl) eq_refl).
Defined.

(** A string has no encoder: it is encoded as itself. *)
Lemma toDict_passes_str_through :
  In (type_of (PyStr "marko")) [Cls.NoneType; Cls.py_str; Cls.py_tuple;
      Cls.Vertex; Cls.Edge; Cls.VertexProperty; Cls.Property; Cls.Path;
      Cls.Other]
  /\ toDict default_io (PyStr "marko") = Ok (PyStr "marko").
Proof.
  assert (H : In (type_of (PyStr "marko")) [Cls.NoneType; Cls.py_str;
      Cls.py_tuple; Cls.Vertex; Cls.Edge; Cls.VertexProperty; Cls.Property;
      Cls.Path; Cls.Other]) by (right; left; reflexivity).
  split; [exact H|].
  exact (proj2 (toDict_passes_unknown_types_through (PyStr "marko") H)).
Defined.

(** The example of the spec: labels [[[], ["a"]]] and objects [[1, 2]]. *)
Lemma Path_objectify_example :
  let d := [(PyStr "labels", PyList [PyList []; PyList [PyStr "a"]]);
            (PyStr "objects", PyList [PyInt 1; PyInt 2])] in
  objectify (toObject default_io) PathDeserializer (PyDict d)
  = Ok (Path [PySet []; PySet [PyStr "a"]] [PyInt 1; PyInt 2]).
Proof.
  intros d.
  apply (Path_objectify_keeps_order default_io d
           [PyList []; PyList [PyStr "a"]] [PyInt 1; PyInt 2]);
    repeat constructor.
Defined.


(** A parsed JSON document without tags is decoded to itself. *)
Lemma toObject_untagged_example :
  let doc := PyDict [(PyStr "a", PyList [PyInt 1; PyStr "x"]);
                     (PyStr "b", PyDict [(PyStr "c", PyNone)])] in
  untagged doc = true /\ toObject default_io doc = Ok doc.
Proof.
  intros doc. split; [reflexivity|].
  exact (toObject_untagged_identity default_io doc eq_refl).
Defined.

(** [{"extra": 1, "@value": 5, "@type": "g:Int32"}] is decoded to 5. *)
Lemma toObject_drops_other_entries_example :
  let items := [(PyStr "extra", PyInt 1); (PyStr "@value", PyInt 5);
                (PyStr "@type", PyStr "g:Int32")] in
  dict_get items _TYPE_KEY = Some (PyStr "g:Int32")
  /\ assoc_get String.eqb (deserializers default_io) "g:Int32" = Some Int32IO
  /\ dict_get items _VALUE_KEY = Some (PyInt 5)
  /\ toObject default_io (PyDict items) = Ok (PyInt 5).
Proof.
  intros items. do 3 (split; [reflexivity|]).
  exact (proj1 (proj1 (toObject_returns_what_the_decoder_returns default_io
                         items "g:Int32" Int32IO (PyInt 5)
                         eq_refl eq_refl eq_refl) (PyInt 5) eq_refl)).
Defined.

(** A nested document goes through encoding and decoding unchanged. *)
Lemma json_data_round_trip_example :
  let doc := PyDict [(PyStr "name", PyStr "marko"); (PyStr "age", PyInt 29);
                     (PyStr "tags", PyList [PyBool true; PyNone])] in
  json_data doc = true
  /\ (w <- toDict default_io doc ;; toObject default_io w) = Ok doc.
Proof.
  intros doc. split; [reflexivity|].
  exact (proj2 (json_data_round_trips doc eq_refl)).
Defined.

(** The caller's dict [{"@type": "g:Vertex", "@value": {"id": "x"}}] comes
    back from the round trip as a vertex. *)
Lemma envelope_shaped_dict_example :
  let value := PyDict [(PyStr "id", PyStr "x")] in
  assoc_get String.eqb (deserializers default_io) "g:Vertex"
  = Some VertexDeserializer
  /\ toDict default_io value = Ok value
  /\ objectify (toObject default_io) VertexDeserializer value
     = Ok (Vertex (PyStr "x") (PyStr ""))
  /\ (w <- toDict default_io (envelope "g:Vertex" value) ;;
      toObject default_io w) = Ok (Vertex (PyStr "x") (PyStr "")).
Proof.
  intros value. do 3 (split; [reflexivity|]).
  exact (proj1 (proj2 (envelope_shaped_dict_does_not_round_trip "g:Vertex"
                         VertexDeserializer value value
                         (Vertex (PyStr "x") (PyStr ""))
                         eq_refl eq_refl eq_refl))).
Defined.

(** [{1: "a"}] cannot be encoded. *)
Lemma toDict_number_key_example :
  dict_comprehension_from (toDict default_io) [] [] = Ok []
  /\ toDict default_io (PyInt 1) = Ok (envelope "g:Int32" (PyInt 1))
  /\ hashable (envelope "g:Int32" (PyInt 1)) = false
  /\ toDict default_io (PyStr "a") = Ok (PyStr "a")
  /\ toDict default_io (PyDict [(PyInt 1, PyStr "a")]) = Raise TypeError.
Proof.
  do 4 (split; [reflexivity|]).
  exact (proj1 (toDict_rejects_unhashable_encoded_key [] [] []
                  (PyInt 1) (PyStr "a") (envelope "g:Int32" (PyInt 1))
                  (PyStr "a") eq_refl eq_refl eq_refl eq_refl)).
Defined.

(** A strategy without configuration, and the binding of "x" to 1. *)
Lemma Strategy_and_Binding_example :
  toDict default_io PyNone = Ok PyNone
  /\ toDict default_io (PyInt 1) = Ok (envelope "g:Int32" (PyInt 1))
  /\ dictify (toDict default_io) TraversalStrategySerializer
       (TraversalStrategy "ReadOnlyStrategy" PyNone)
     = Ok (PyDict [(PyStr "@type", PyStr "g:ReadOnlyStrategy")])
  /\ dictify (toDict default_io) BindingSerializer (Binding "x" (PyInt 1))
     = Ok (envelope "g:Binding"
             (PyDict [(PyStr "key", PyStr "x");
                      (PyStr "value", envelope "g:Int32" (PyInt 1))])).
Proof.
  do 2 (split; [reflexivity|]).
  pose proof (Strategy_and_Binding_dictify_shape default_io
                "ReadOnlyStrategy" "x" PyNone (PyInt 1) PyNone
                (envelope "g:Int32" (PyInt 1)) eq_refl eq_refl)
    as (_ & H1 & _ & H2).
  split; [exact (H1 eq_refl) | exact H2].
Defined.

(** A vertex property with all its fields. *)
Lemma VertexProperty_objectify_example :
  let d := [(PyStr "id", PyInt 1); (PyStr "label", PyStr "name");
            (PyStr "value", PyStr "marko")] in
  dict_get d "value" = Some (PyStr "marko")
  /\ toObject default_io (PyStr "marko") = Ok (PyStr "marko")
  /\ objectify (toObject default_io) VertexPropertyDeserializer (PyDict d)
     = Ok (VertexProperty (PyInt 1) (PyStr "name") (PyStr "marko")).
Proof.
  intros d. do 2 (split; [reflexivity|]).
  exact (proj1 (VertexProperty_and_Property_objectify default_io d
                  (PyStr "marko") (PyStr "marko") eq_refl eq_refl)
           (PyInt 1) (PyInt 1) (PyStr "name") eq_refl eq_refl eq_refl).
Defined.
